(** * Stock dashboard: the statistics calculator and the per-symbol script

    A shallow embedding of [stock_dashboard.py].  Prices are binary64
    floating-point numbers, as the data frames of the program hold them
    (numpy [float64]); volumes are integers ([int64]).  Python's [None] is
    [option]'s [None]; a call that may raise returns a [py] outcome. *)

From Stdlib Require Import ZArith List String Bool Lia Floats.
From Stdlib Require Uint63.
Import ListNotations.

Set Implicit Arguments.

(** ** Python outcomes *)

(** An exception: its class and the text [str(e)] gives. *)
Inductive exn : Type := PyExc (cls msg : string).

Definition str (e : exn) : string := match e with PyExc _ msg => msg end.

Inductive py (A : Type) : Type :=
| Ret (a : A)
| Raise (e : exn).

Arguments Ret {A} a.
Arguments Raise {A} e.

Definition py_bind {A B : Type} (c : py A) (k : A -> py B) : py B :=
  match c with
  | Ret a => k a
  | Raise e => Raise e
  end.

Declare Scope py_scope.
Delimit Scope py_scope with py.
Notation "x <- c ;; k" := (py_bind c (fun x => k))
  (at level 100, c at next level, right associativity) : py_scope.

(** ** The data-frame operations the dashboard calls *)

Module Pandas.

(** One row of the frame [Ticker.history] returns: the index (a date, as a
    day number) and the columns the program reads.  The frame's other columns
    (Dividends, Stock Splits) are never read and are left out. *)
Record Row : Type := mkRow
  { Date : Z; Open : float; High : float; Low : float; Close : float; Volume : Z }.

Definition DataFrame : Type := list Row.

(** [df.empty] *)
Definition empty (df : DataFrame) : bool :=
  match df with
  | [] => true
  | _ :: _ => false
  end.

(** [df[name]]: a column, in row order. *)
Definition col {A : Type} (name : Row -> A) (df : DataFrame) : list A := map name df.

(** [s.iloc[i]] for an integer [i]: a negative position counts from the end,
    a position outside the series raises [IndexError]. *)
Definition iloc {A : Type} (s : list A) (i : Z) : py A :=
  let n := Z.of_nat (List.length s) in
  let j := if (i <? 0)%Z then (i + n)%Z else i in
  if ((j <? 0) || (n <=? j))%Z
  then Raise (PyExc "IndexError" "single positional indexer is out-of-bounds")
  else match nth_error s (Z.to_nat j) with
       | Some x => Ret x
       | None => Raise (PyExc "IndexError" "single positional indexer is out-of-bounds")
       end.

Definition notna (x : float) : bool := negb (is_nan x).

(** One step of the reduction on values that are not NaN: the running
    extreme [a] gives way to the next value [b] when [b] is at least (at
    most) as large, so of two values that compare equal, as 0.0 and -0.0 do,
    the later one is kept. *)
Definition maximum (a b : float) : float := if (a <=? b)%float then b else a.
Definition minimum (a b : float) : float := if (b <=? a)%float then b else a.

(** [s.max()] and [s.min()] of a float column: missing values (NaN) are
    skipped, the remaining ones are reduced from the left; a column with no
    value left gives NaN. *)
Definition max (s : list float) : float :=
  match filter notna s with
  | [] => nan
  | x :: rest => fold_left maximum rest x
  end.

Definition min (s : list float) : float :=
  match filter notna s with
  | [] => nan
  | x :: rest => fold_left minimum rest x
  end.

(** The binary64 number nearest to an integer. *)
Definition float_of_Z (z : Z) : float := SF2Prim (binary_normalize prec emax z 0 false).

Definition sum (s : list Z) : Z := fold_right Z.add 0%Z s.

(** [s.mean()] of an integer column: the sum of the values, as a binary64
    number, divided by their count, in binary64.  pandas accumulates the sum
    in binary64.  While no value is negative and the total stays below 2^53,
    every partial sum is an integer binary64 holds exactly, so the accumulated
    sum is [float_of_Z (sum s)] in whatever order it is taken; past that
    bound the accumulated sum may differ from it by the roundings on the way,
    and what is proved of the mean below is proved within the bound.  An
    empty column gives 0/0, that is NaN. *)
Definition mean (s : list Z) : float :=
  (float_of_Z (sum s) / float_of_Z (Z.of_nat (List.length s)))%float.

(** [df.tail(n)] *)
Definition tail (n : nat) (df : DataFrame) : DataFrame := skipn (List.length df - n) df.

End Pandas.

(** ** calculate_statistics *)

(** The dictionary [calculate_statistics] returns, one field per key, in the
    order of the keys. *)
Record Statistics : Type := mkStatistics
  { Current_Price : float;
    Opening_Price : float;
    High : float;
    Low : float;
    Price_Change : float;
    Percentage_Change : float;
    Average_Volume : float }.

Definition calculate_statistics (data : option Pandas.DataFrame) : py (option Statistics) :=
  match data with
  | None => Ret None
  | Some data =>
      if Pandas.empty data then Ret None
      else
        (current_price <- Pandas.iloc (Pandas.col Pandas.Close data) (-1) ;;
         previous_price <- Pandas.iloc (Pandas.col Pandas.Close data) 0 ;;
         let price_change := (current_price - previous_price)%float in
         let percentage_change := ((price_change / previous_price) * 100)%float in
         Ret (Some {| Current_Price := current_price;
                      Opening_Price := previous_price;
                      High := Pandas.max (Pandas.col Pandas.High data);
                      Low := Pandas.min (Pandas.col Pandas.Low data);
                      Price_Change := price_change;
                      Percentage_Change := percentage_change;
                      Average_Volume := Pandas.mean (Pandas.col Pandas.Volume data) |}))%py
  end.

(** [stats.items()] *)
Definition items (stats : Statistics) : list (string * float) :=
  [ ("Current Price", Current_Price stats);
    ("Opening Price", Opening_Price stats);
    ("High", High stats);
    ("Low", Low stats);
    ("Price Change", Price_Change stats);
    ("Percentage Change", Percentage_Change stats);
    ("Average Volume", Average_Volume stats) ]%string.

(** ** The sidebar's date range *)

(** A [datetime] (microseconds since the epoch) or a [date] (a day number):
    [datetime.now()] gives the first, [st.sidebar.date_input] the second. *)
Inductive pydate : Type :=
| datetime (us : Z)
| date (days : Z).

Definition us_per_day : Z := 86400000000.

(** [d - timedelta(days=n)] *)
Definition minus_days (d : pydate) (n : Z) : pydate :=
  match d with
  | datetime us => datetime (us - n * us_per_day)
  | date days => date (days - n)
  end.

(** The day [d.strftime('%Y-%m-%d')] names. *)
Definition strftime_day (d : pydate) : Z :=
  match d with
  | datetime us => us / us_per_day
  | date days => days
  end.

(** What the widgets hand to one run of the script, and the clock. *)
Record Inputs : Type := mkInputs
  { stock_symbols : list string;
    date_range : string;
    custom_start_date : Z;
    custom_end_date : Z;
    chart_type : string;
    export_format : string;
    export_button : bool;
    now : Z }.

(** Lines 37-51: the pair [(start_date, end_date)]. *)
Definition date_window (inp : Inputs) : pydate * pydate :=
  if (date_range inp =? "Custom")%string then
    (date (custom_start_date inp), date (custom_end_date inp))
  else
    let end_date := datetime (now inp) in
    let start_date :=
      if (date_range inp =? "1 Week")%string then minus_days end_date 14
      else if (date_range inp =? "1 Month")%string then minus_days end_date 35
      else if (date_range inp =? "3 Months")%string then minus_days end_date 95
      else if (date_range inp =? "6 Months")%string then minus_days end_date 185
      else minus_days end_date 370 in
    (start_date, end_date).

Definition start_date (inp : Inputs) : pydate := fst (date_window inp).
Definition end_date (inp : Inputs) : pydate := snd (date_window inp).

(** The options of the "Select Period" box. *)
Definition periods : list string :=
  ["1 Week"; "1 Month"; "3 Months"; "6 Months"; "1 Year"; "Custom"]%string.

(** ** What the script puts on the page *)

(** An f-string: literal text and formatted values, in order. *)
Inductive fragment : Type :=
| Str (s : string)
| Num (spec : string) (x : float)
| Day (spec : string) (d : pydate).

Definition fstring : Type := list fragment.

Inductive trace : Type :=
| Candlestick (x : list Z) (open high low close : list float) (name : string)
| Ohlc (x : list Z) (open high low close : list float) (name : string)
| Scatter (x : list Z) (y : list float) (mode fill : option string) (name : string)
| Bar (x : list Z) (y : list Z) (name marker_color : string).

Record Figure : Type := mkFigure
  { traces : list trace;
    fig_title : string;
    xaxis_title : string;
    yaxis_title : string;
    height : Z;
    hovermode : option string }.

(** The export file handed to a download button: the text [to_csv] makes of
    the combined frame (each row with its added Symbol column), or the
    workbook with one sheet per symbol.  The files are kept as the frames they
    are written from. *)
Inductive artifact : Type :=
| csv_of (combined_data : list (Pandas.Row * string))
| xlsx_of (sheets : list (string * Pandas.DataFrame)).

Inductive element : Type :=
| subheader (body : string)
| markdown (body : fstring)
| caption (body : string)
| warning (body : string)
| error (body : string)
| metric (label : string) (value : fstring) (delta : option fstring)
| plotly_chart (fig : Figure)
| table (metric_col : list string) (value_col : list fstring)
| dataframe (df : Pandas.DataFrame)
| selectbox (label : string) (options : list string)
| button (label : string)
| download_button (label : string) (data : artifact) (file_name : fstring) (mime : string).

(** The [with] blocks an element is written under, outermost first. *)
Inductive container : Type :=
| Sidebar
| Tab (i : nat)
| Spinner (text : string)
| Column (name : string)
| Expander (label : string).

Definition placed : Type := list container * element.

(** [all_data]: a dictionary keeps its keys in the order they were first set. *)
Definition dict (V : Type) : Type := list (string * V).

Fixpoint dict_set {V : Type} (d : dict V) (k : string) (v : V) : dict V :=
  match d with
  | [] => [(k, v)]
  | (k', v') :: rest =>
      if (k' =? k)%string then (k, v) :: rest else (k', v') :: dict_set rest k v
  end.

Definition keys {V : Type} (d : dict V) : list string := map fst d.

(** The state of a run: the page so far and [all_data]. *)
Record state : Type := mkState
  { page : list placed;
    all_data : dict Pandas.DataFrame }.

(** A piece of the script: it runs under some [with] blocks, changes the state
    and returns or raises; what was written before a raise stays written. *)
Definition script (A : Type) : Type := list container -> state -> state * py A.

Definition ret {A : Type} (a : A) : script A := fun _ s => (s, Ret a).

Definition bind {A B : Type} (c : script A) (k : A -> script B) : script B :=
  fun path s =>
    match c path s with
    | (s', Ret a) => k a path s'
    | (s', Raise e) => (s', Raise e)
    end.

Declare Scope script_scope.
Delimit Scope script_scope with script.
Notation "x <- c ;; k" := (bind c (fun x => k))
  (at level 100, c at next level, right associativity) : script_scope.
Notation "c ;; k" := (bind c (fun _ => k))
  (at level 100, right associativity) : script_scope.

(** A Streamlit call that writes one element. *)
Definition st (e : element) : script unit :=
  fun path s => ({| page := page s ++ [(path, e)]; all_data := all_data s |}, Ret tt).

(** [with c: body] *)
Definition within {A : Type} (c : container) (body : script A) : script A :=
  fun path s => body (path ++ [c]) s.

Definition lift {A : Type} (c : py A) : script A := fun _ s => (s, c).

(** [all_data[symbol] = data] *)
Definition set_all_data (symbol : string) (data : Pandas.DataFrame) : script unit :=
  fun _ s => ({| page := page s; all_data := dict_set (all_data s) symbol data |}, Ret tt).

Definition get_all_data : script (dict Pandas.DataFrame) := fun _ s => (s, Ret (all_data s)).

(** [try: body except Exception as e: handler e] *)
Definition try_except {A : Type} (body : script A) (handler : exn -> script A) : script A :=
  fun path s =>
    match body path s with
    | (s', Ret a) => (s', Ret a)
    | (s', Raise e) => handler e path s'
    end.

Fixpoint for_each {A : Type} (xs : list A) (body : A -> script unit) : script unit :=
  match xs with
  | [] => ret tt
  | x :: rest => (body x ;; for_each rest body)%script
  end.

Definition enumerate {A : Type} (xs : list A) : list (nat * A) :=
  combine (seq 0 (List.length xs)) xs.

(** ** The data provider *)

(** [stock.info], a dictionary the script fetches and never reads. *)
Definition Info : Type := list (string * string).

(** The libraries behind a run.  yfinance: [Ticker(symbol).history(start, end)]
    and [Ticker(symbol).info] each return or raise; the answers of
    [get_stock_data] are cached by their arguments, so within a run the same
    request has the same answer.  The Excel writer:
    [data.to_excel(writer, sheet_name=symbol)] returns or raises, as it does
    on a frame whose index carries a time zone, which the frames of
    [history] may. *)
Record Provider : Type := mkProvider
  { history : string -> Z -> Z -> py Pandas.DataFrame;
    info : string -> py Info;
    to_excel : string -> Pandas.DataFrame -> py unit }.

Definition get_stock_data (yf : Provider) (symbol : string) (start end_ : pydate)
  : script (option Pandas.DataFrame * option Info) :=
  try_except
    (let start_str := strftime_day start in
     let end_str := strftime_day end_ in
     data <- lift (history yf symbol start_str end_str) ;;
     if Pandas.empty data then
       (st (warning ("No data returned for " ++ symbol ++ ". Try a different date range.")) ;;
        ret (None, None))
     else
       (stock_info <- lift (info yf symbol) ;;
        ret (Some data, Some stock_info)))%script
    (fun e =>
       st (error ("Error fetching data for " ++ symbol ++ ": " ++ str e)) ;;
       ret (None, None))%script.

(** ** One symbol's tab (lines 125-262) *)

(** ['Volume' in k] *)
Definition mentions_Volume (k : string) : bool :=
  match index 0 "Volume" k with
  | Some _ => true
  | None => false
  end.

Definition price_figure (chart_type symbol : string) (data : Pandas.DataFrame) : Figure :=
  let x := Pandas.col Pandas.Date data in
  let tr :=
    if (chart_type =? "Candlestick")%string then
      Candlestick x (Pandas.col Pandas.Open data) (Pandas.col Pandas.High data)
                  (Pandas.col Pandas.Low data) (Pandas.col Pandas.Close data) symbol
    else if (chart_type =? "OHLC")%string then
      Ohlc x (Pandas.col Pandas.Open data) (Pandas.col Pandas.High data)
           (Pandas.col Pandas.Low data) (Pandas.col Pandas.Close data) symbol
    else if (chart_type =? "Line Chart")%string then
      Scatter x (Pandas.col Pandas.Close data) (Some "lines"%string) None symbol
    else
      Scatter x (Pandas.col Pandas.Close data) None (Some "tozeroy"%string) symbol in
  {| traces := [tr];
     fig_title := symbol ++ " Stock Price - " ++ chart_type;
     xaxis_title := "Date";
     yaxis_title := "Price (USD)";
     height := 500;
     hovermode := Some "x unified"%string |}.

Definition volume_figure (symbol : string) (data : Pandas.DataFrame) : Figure :=
  {| traces := [Bar (Pandas.col Pandas.Date data) (Pandas.col Pandas.Volume data)
                    "Volume" "lightblue"];
     fig_title := symbol ++ " Trading Volume";
     xaxis_title := "Date";
     yaxis_title := "Volume";
     height := 300;
     hovermode := None |}.

(** Lines 137-260: everything drawn from the statistics and the frame. *)
Definition render_panel (chart_type symbol : string) (data : Pandas.DataFrame)
    (stats : Statistics) : script unit :=
  (within (Column "col1")
     (st (metric "Current Price" [Str "$"; Num ".2f" (Current_Price stats)]
            (Some [Num ".2f" (Price_Change stats); Str " (";
                   Num ".2f" (Percentage_Change stats); Str "%)"]))) ;;
   within (Column "col2") (st (metric "High" [Str "$"; Num ".2f" (High stats)] None)) ;;
   within (Column "col3") (st (metric "Low" [Str "$"; Num ".2f" (Low stats)] None)) ;;
   within (Column "col4")
     (st (metric "Avg Volume" [Num ",.0f" (Average_Volume stats)] None)) ;;
   st (markdown [Str "---"]) ;;
   st (subheader "📊 Price Change Analysis") ;;
   within (Column "col_calc1")
     (st (markdown [Str "**Opening Price (Start of Period)**"]) ;;
      st (markdown [Str "### $"; Num ".2f" (Opening_Price stats)])) ;;
   let rising := (0 <=? Price_Change stats)%float in
   let change_color := if rising then "green"%string else "red"%string in
   let arrow := if rising then "↑"%string else "↓"%string in
   within (Column "col_calc2")
     (st (markdown [Str "**Price Difference**"]) ;;
      st (markdown [Str ("### :" ++ change_color ++ "[" ++ arrow ++ " $");
                    Num ".2f" (abs (Price_Change stats)); Str "]"]) ;;
      st (caption "Formula: Current Price - Opening Price")) ;;
   within (Column "col_calc3")
     (st (markdown [Str "**Percentage Change**"]) ;;
      st (markdown [Str ("### :" ++ change_color ++ "[" ++ arrow ++ " ");
                    Num ".2f" (abs (Percentage_Change stats)); Str "%]"]) ;;
      st (caption "Formula: (Price Change / Opening Price) × 100")) ;;
   st (markdown [Str "---"]) ;;
   st (plotly_chart (price_figure chart_type symbol data)) ;;
   st (plotly_chart (volume_figure symbol data)) ;;
   within (Expander "View Detailed Statistics")
     (st (table (map fst (items stats))
            (map (fun kv : string * float =>
                    let (k, v) := kv in
                    if negb (mentions_Volume k) then [Str "$"; Num ".2f" v]
                    else [Num ",.2f" v])
                 (items stats)))) ;;
   within (Expander "View Recent Data") (st (dataframe (Pandas.tail 10 data))))%script.

(** [stats[...]] on what [calculate_statistics] returned. *)
Definition subscriptable (stats : option Statistics) : py Statistics :=
  match stats with
  | Some stats => Ret stats
  | None => Raise (PyExc "TypeError" "'NoneType' object is not subscriptable")
  end.

Definition tab_body (inp : Inputs) (yf : Provider) (symbol : string) : script unit :=
  (st (subheader (symbol ++ " Stock Analysis")) ;;
   fetched <- within (Spinner ("Loading data for " ++ symbol ++ "..."))
                (get_stock_data yf symbol (start_date inp) (end_date inp)) ;;
   match fst fetched with
   | Some data =>
       if negb (Pandas.empty data) then
         (set_all_data symbol data ;;
          stats <- lift (calculate_statistics (Some data)) ;;
          stats <- lift (subscriptable stats) ;;
          render_panel (chart_type inp) symbol data stats)
       else st (error ("No data available for " ++ symbol))
   | None => st (error ("No data available for " ++ symbol))
   end)%script.

(** ** Export (lines 264-299) and the main content (lines 116-302) *)

(** Lines 274-278: every frame of [all_data], each row with its symbol, one
    frame after the other. *)
Definition combine_all (all : dict Pandas.DataFrame) : list (Pandas.Row * string) :=
  fold_left
    (fun combined_data item =>
       let (symbol, data) := item : string * Pandas.DataFrame in
       let data_copy := map (fun r => (r, symbol)) data in
       combined_data ++ data_copy)
    all [].

(** The sheets of a workbook every frame of [all_data] was written to: one
    sheet per item, named by the symbol. *)
Definition write_sheets (all : dict Pandas.DataFrame) : list (string * Pandas.DataFrame) :=
  fold_left (fun sheets item => sheets ++ [item]) all [].

(** Lines 291-292: each frame is written to its sheet of the writer, in the
    order of the items; a write that raises ends the loop, and nothing
    catches it. *)
Fixpoint to_excel_each (yf : Provider) (items : dict Pandas.DataFrame)
    (writer : list (string * Pandas.DataFrame)) : py (list (string * Pandas.DataFrame)) :=
  match items with
  | [] => Ret writer
  | (symbol, data) :: rest =>
      (_ <- to_excel yf symbol data ;;
       to_excel_each yf rest (writer ++ [(symbol, data)]))%py
  end.

Definition export (inp : Inputs) (yf : Provider) : script unit :=
  (within Sidebar (st (markdown [Str "---"])) ;;
   within Sidebar (st (subheader "Export Data")) ;;
   all <- get_all_data ;;
   match all with
   | [] => ret tt
   | _ :: _ =>
       within Sidebar (st (selectbox "Export Format" ["CSV"; "Excel"]%string)) ;;
       within Sidebar (st (button "📥 Export Data")) ;;
       if export_button inp then
         if (export_format inp =? "CSV")%string then
           within Sidebar
             (st (download_button "Download CSV" (csv_of (combine_all all))
                    [Str "stock_data_"; Day "%Y%m%d" (datetime (now inp)); Str ".csv"]
                    "text/csv"))
         else
           (sheets <- lift (to_excel_each yf all []) ;;
            within Sidebar
              (st (download_button "Download Excel" (xlsx_of sheets)
                     [Str "stock_data_"; Day "%Y%m%d" (datetime (now inp)); Str ".xlsx"]
                     "application/vnd.openxmlformats-officedocument.spreadsheetml.sheet")))
       else ret tt
   end)%script.

(** [all_data = {}] *)
Definition new_all_data : script unit :=
  fun _ s => ({| page := page s; all_data := [] |}, Ret tt).

Definition tabs_loop (inp : Inputs) (yf : Provider) : script unit :=
  for_each (enumerate (stock_symbols inp))
    (fun item => let (i, symbol) := item : nat * string in
                 within (Tab i) (tab_body inp yf symbol)).

Definition main_content (inp : Inputs) (yf : Provider) : script unit :=
  match stock_symbols inp with
  | [] =>
      st (warning "⚠️ Please select at least one stock symbol from the sidebar to begin analysis.")
  | _ :: _ =>
      (new_all_data ;;
       tabs_loop inp yf ;;
       export inp yf)%script
  end.

Definition blank : state := {| page := []; all_data := [] |}.

(** One run of the main content on a fresh page.  The page set-up, the
    sidebar's widgets and the footer (lines 9-57 and 304-316) write the same
    elements in every run and are left out; what the widgets return is in
    [Inputs]. *)
Definition run (inp : Inputs) (yf : Provider) : state * py unit :=
  main_content inp yf [] blank.

(** The symbols an export file holds: the Symbol column of the text, the
    sheet names of the workbook. *)
Definition symbols_of (a : artifact) : list string :=
  match a with
  | csv_of combined_data => map snd combined_data
  | xlsx_of sheets => map fst sheets
  end.

(** The export files offered on a page. *)
Definition downloads (pg : list placed) : list artifact :=
  flat_map (fun pe : placed =>
              match snd pe with
              | download_button _ a _ _ => [a]
              | _ => []
              end) pg.

(** What a page shows under tab [i], with the blocks inside the tab kept. *)
Definition in_tab (i : nat) (pg : list placed) : list placed :=
  filter (fun pe : placed =>
            match fst pe with
            | Tab j :: _ => Nat.eqb i j
            | _ => false
            end) pg.

(** ** Sample data *)

Definition two_bars : Pandas.DataFrame :=
  [ Pandas.mkRow 1 98 105 95 100 1000; Pandas.mkRow 2 101 112 99 110 2000 ].

Definition one_bar : Pandas.DataFrame := [ Pandas.mkRow 1 48 55 45 50 500 ].

(** A series whose first close is 0. *)
Definition zero_baseline : Pandas.DataFrame :=
  [ Pandas.mkRow 1 1 2 0 0 500; Pandas.mkRow 2 4 6 4 5 700 ].

(** The rows of [two_bars], latest first. *)
Definition descending : Pandas.DataFrame :=
  [ Pandas.mkRow 2 101 112 99 110 2000; Pandas.mkRow 1 98 105 95 100 1000 ].

Definition sample_yf : Provider :=
  {| history := fun symbol _ _ =>
       if (symbol =? "AAPL")%string then Ret two_bars
       else if (symbol =? "MSFT")%string then Ret one_bar
       else if (symbol =? "TSLA")%string then Ret []
       else Raise (PyExc "ConnectionError" "no route to host");
     info := fun symbol =>
       if (symbol =? "MSFT")%string then Raise (PyExc "KeyError" "'info'") else Ret [];
     to_excel := fun _ _ => Ret tt |}.

(** The same answers, on frames whose index carries a time zone: the Excel
    writer refuses them. *)
Definition tz_aware_yf : Provider :=
  {| history := history sample_yf;
     info := info sample_yf;
     to_excel := fun _ _ =>
       Raise (PyExc "ValueError"
                "Excel does not support datetimes with timezones. Please ensure that datetimes are timezone unaware before writing to Excel.") |}.

Definition sample_inputs : Inputs :=
  {| stock_symbols := ["GOOGL"; "AAPL"; "TSLA"; "MSFT"]%string;
     date_range := "1 Week";
     custom_start_date := 0;
     custom_end_date := 0;
     chart_type := "Line Chart";
     export_format := "CSV";
     export_button := true;
     now := 1700000000000000 |}.

(** ** Properties of calculate_statistics *)

(** The values of a row, its date left out. *)
Definition values (r : Pandas.Row) : float * float * float * float * Z :=
  (Pandas.Open r, Pandas.High r, Pandas.Low r, Pandas.Close r, Pandas.Volume r).

(** Dates never decrease from one row to the next. *)
Fixpoint date_ascending (df : Pandas.DataFrame) : bool :=
  match df with
  | [] => true
  | r :: rest =>
      match rest with
      | [] => true
      | r' :: _ => (Pandas.Date r <=? Pandas.Date r')%Z && date_ascending rest
      end
  end.

(** No value of the High and Low columns is missing (NaN). *)
Definition complete (df : Pandas.DataFrame) : bool :=
  forallb (fun r => Pandas.notna (Pandas.High r) && Pandas.notna (Pandas.Low r)) df.

(** The volumes are counts the mean is exact on: none is negative, and their
    total and the number of rows are below 2^53, so binary64 holds every
    partial sum and the count exactly. *)
Definition exact_volumes (df : Pandas.DataFrame) : bool :=
  forallb (fun r => (0 <=? Pandas.Volume r)%Z) df
  && (fold_right Z.add 0%Z (map Pandas.Volume df) <? 2 ^ 53)%Z
  && (Z.of_nat (List.length df) <? 2 ^ 53)%Z.

(** [m] is one of the values and none of them is greater. *)
Definition maximum_of (m : float) (s : list float) : Prop :=
  In m s /\ forall y, In y s -> (y <=? m)%float = true.

(** [m] is one of the values and none of them is smaller. *)
Definition minimum_of (m : float) (s : list float) : Prop :=
  In m s /\ forall y, In y s -> (m <=? y)%float = true.

(** The call returned a dictionary: it neither raised nor returned [None]. *)
Definition returns_statistics (r : py (option Statistics)) : Prop :=
  exists stats, r = Ret (Some stats).

(** The specification's reading of a zero baseline: on a series whose first
    close is 0 the call does not return a dictionary. *)
Definition zero_baseline_refused : Prop :=
  forall (first : Pandas.Row) (rest : Pandas.DataFrame),
    is_zero (Pandas.Close first) = true ->
    ~ returns_statistics (calculate_statistics (Some (first :: rest))).

(** ** Notions the properties of a run are stated with *)

(** What a piece of the script writes on a fresh page, given [all_data]. *)
Definition rendered_with {A : Type} (all : dict Pandas.DataFrame) (c : script A)
    (path : list container) : list placed :=
  page (fst (c path {| page := []; all_data := all |})).

Definition rendered {A : Type} (c : script A) (path : list container) : list placed :=
  rendered_with [] c path.

(** How a piece of the script ends on a fresh page, given [all_data]. *)
Definition outcome_with {A : Type} (all : dict Pandas.DataFrame) (c : script A)
    (path : list container) : py A :=
  snd (c path {| page := []; all_data := all |}).

(** The Excel writer takes every frame of [all]. *)
Definition writes_all (yf : Provider) (all : dict Pandas.DataFrame) : bool :=
  forallb (fun item : string * Pandas.DataFrame =>
             match to_excel yf (fst item) (snd item) with
             | Ret _ => true
             | Raise _ => false
             end) all.

(** The inputs with another choice in the "Select Period" box. *)
Definition with_period (inp : Inputs) (period : string) : Inputs :=
  {| stock_symbols := stock_symbols inp;
     date_range := period;
     custom_start_date := custom_start_date inp;
     custom_end_date := custom_end_date inp;
     chart_type := chart_type inp;
     export_format := export_format inp;
     export_button := export_button inp;
     now := now inp |}.

(** The number of days between the two day strings handed to the provider. *)
Definition fetched_days (inp : Inputs) : Z :=
  strftime_day (end_date inp) - strftime_day (start_date inp).

(** The longest span of days a preset's name can stand for. *)
Definition named_days (period : string) : Z :=
  if (period =? "1 Week")%string then 7
  else if (period =? "1 Month")%string then 31
  else if (period =? "3 Months")%string then 92
  else if (period =? "6 Months")%string then 184
  else 366.

(** What the provider has for a symbol in this run: the frame and the info,
    when [history] returned a frame with rows and [info] returned too;
    otherwise the message [get_stock_data] writes. *)
Definition fetch_of (inp : Inputs) (yf : Provider) (symbol : string)
  : element + Pandas.DataFrame * Info :=
  match history yf symbol (strftime_day (start_date inp)) (strftime_day (end_date inp)) with
  | Raise e => inl (error ("Error fetching data for " ++ symbol ++ ": " ++ str e))
  | Ret data =>
      if Pandas.empty data
      then inl (warning ("No data returned for " ++ symbol ++ ". Try a different date range."))
      else match info yf symbol with
           | Raise e => inl (error ("Error fetching data for " ++ symbol ++ ": " ++ str e))
           | Ret stock_info => inr (data, stock_info)
           end
  end.

(** The symbol's fetch succeeded with data. *)
Definition succeeded (inp : Inputs) (yf : Provider) (symbol : string) : bool :=
  match fetch_of inp yf symbol with
  | inr _ => true
  | inl _ => false
  end.

(** [all_data] after the tab of [symbol]. *)
Definition stored (inp : Inputs) (yf : Provider) (symbol : string)
    (all : dict Pandas.DataFrame) : dict Pandas.DataFrame :=
  match fetch_of inp yf symbol with
  | inr (data, _) => dict_set all symbol data
  | inl _ => all
  end.

(** Two providers answer alike for a symbol. *)
Definition same_answers (yf yf' : Provider) (symbol : string) : Prop :=
  (forall start_str end_str, history yf symbol start_str end_str = history yf' symbol start_str end_str) /\
  info yf symbol = info yf' symbol.

(** What the tabs of [items] write, one after the other, and what they leave
    in [all_data]. *)
Definition tabs_written (inp : Inputs) (yf : Provider) (items : list (nat * string))
    (path : list container) : list placed :=
  flat_map (fun item : nat * string =>
              rendered (tab_body inp yf (snd item)) (path ++ [Tab (fst item)])) items.

Definition tabs_stored (inp : Inputs) (yf : Provider) (items : list (nat * string))
    (all : dict Pandas.DataFrame) : dict Pandas.DataFrame :=
  fold_left (fun d (item : nat * string) => stored inp yf (snd item) d) items all.

(** Every frame of a dictionary has rows. *)
Definition all_with_rows (all : dict Pandas.DataFrame) : Prop :=
  forall k data, In (k, data) all -> Pandas.empty data = false.

(** The symbol is selected and its fetch succeeded with data. *)
Definition fetched (inp : Inputs) (yf : Provider) (symbol : string) : Prop :=
  In symbol (stock_symbols inp) /\ succeeded inp yf symbol = true.

(** The page offers the export: its button is in the sidebar. *)
Definition export_offered (pg : list placed) : Prop :=
  In ([Sidebar], button "📥 Export Data") pg.

(** [combined_data[combined_data['Symbol'] == symbol]], without the added
    column. *)
Definition rows_of (symbol : string) (combined_data : list (Pandas.Row * string))
  : Pandas.DataFrame :=
  map fst (filter (fun rs : Pandas.Row * string => (snd rs =? symbol)%string) combined_data).

(** ** Notions for the further properties *)

(** The values [calculate_statistics] reads from a row: every column but Open,
    and not the index. *)
Definition read_values (r : Pandas.Row) : float * float * float * Z :=
  (Pandas.High r, Pandas.Low r, Pandas.Close r, Pandas.Volume r).

(** A bar as the provider is expected to give it: High and Low present and
    the close between them. *)
Definition well_formed (r : Pandas.Row) : bool :=
  Pandas.notna (Pandas.High r) && Pandas.notna (Pandas.Low r)
  && (Pandas.Low r <=? Pandas.Close r)%float && (Pandas.Close r <=? Pandas.High r)%float.

(** The periods the chain of lines 37-49 tests for. *)
Definition tested_periods : list string :=
  ["Custom"; "1 Week"; "1 Month"; "3 Months"; "6 Months"]%string.

(** The chart types the chain of lines 183-208 tests for. *)
Definition tested_chart_types : list string :=
  ["Candlestick"; "OHLC"; "Line Chart"]%string.

(** Lines 167-168: [change_color] and [arrow]. *)
Definition colour_and_arrow (stats : Statistics) : string * string :=
  if (0 <=? Price_Change stats)%float then ("green", "↑")%string else ("red", "↓")%string.

(** The sample inputs with "Excel" chosen as the export format. *)
Definition sample_excel : Inputs :=
  {| stock_symbols := stock_symbols sample_inputs;
     date_range := date_range sample_inputs;
     custom_start_date := custom_start_date sample_inputs;
     custom_end_date := custom_end_date sample_inputs;
     chart_type := chart_type sample_inputs;
     export_format := "Excel";
     export_button := true;
     now := now sample_inputs |}.

(** [two_bars] with other dates and other opening prices. *)
Definition two_bars_reopened : Pandas.DataFrame :=
  [ Pandas.mkRow 7 1 105 95 100 1000; Pandas.mkRow 3 2 112 99 110 2000 ].

Lemma last_cons (A : Type) (xs : list A) (x y : A) : last (y :: xs) x = last xs y.
Proof.
  revert x y. induction xs as [|z zs IH]; intros x y; [reflexivity|].
  change (last (z :: zs) x = last (z :: zs) y).
  now rewrite (IH x z), (IH y z).
Qed.

Lemma nth_error_length_last (A : Type) (xs : list A) (x : A) :
  nth_error (x :: xs) (List.length xs) = Some (last xs x).
Proof.
  revert x. induction xs as [|y ys IH]; intros x; [reflexivity|].
  change (nth_error (y :: ys) (List.length ys) = Some (last (y :: ys) x)).
  now rewrite IH, last_cons.
Qed.

Lemma iloc_first (A : Type) (x : A) (xs : list A) : Pandas.iloc (x :: xs) 0 = Ret x.
Proof.
  unfold Pandas.iloc.
  replace ((0 <? 0)%Z) with false by reflexivity.
  replace ((0 <? 0) || (Z.of_nat (List.length (x :: xs)) <=? 0))%Z with false.
  - reflexivity.
  - symmetry. apply orb_false_iff. split; [reflexivity|].
    apply Z.leb_gt. simpl List.length. lia.
Qed.

Lemma iloc_last (A : Type) (x : A) (xs : list A) :
  Pandas.iloc (x :: xs) (-1) = Ret (last xs x).
Proof.
  unfold Pandas.iloc.
  replace ((-1 <? 0)%Z) with true by reflexivity.
  set (n := Z.of_nat (List.length (x :: xs))).
  assert (Hn : (-1 + n)%Z = Z.of_nat (List.length xs)) by (subst n; simpl List.length; lia).
  rewrite Hn.
  replace ((Z.of_nat (List.length xs) <? 0) || (n <=? Z.of_nat (List.length xs)))%Z with false.
  - rewrite Nat2Z.id, nth_error_length_last. reflexivity.
  - symmetry. apply orb_false_iff. split.
    + apply Z.ltb_ge. lia.
    + apply Z.leb_gt. lia.
Qed.

Lemma last_map (A B : Type) (f : A -> B) (xs : list A) (x : A) :
  last (map f xs) (f x) = f (last xs x).
Proof.
  revert x. induction xs as [|y ys IH]; intros x; [reflexivity|].
  cbn [map]. now rewrite !last_cons.
Qed.

Lemma same_values_same_column (A : Type) (name : Pandas.Row -> A)
    (part : float * float * float * float * Z -> A) (df df' : Pandas.DataFrame) :
  (forall r, name r = part (values r)) ->
  map values df = map values df' -> map name df = map name df'.
Proof.
  intros Hname H.
  rewrite (map_ext name (fun r => part (values r)) Hname df).
  rewrite (map_ext name (fun r => part (values r)) Hname df').
  rewrite <- !(map_map values part). now rewrite H.
Qed.

(** On a frame with a first row the function never raises: it returns the
    dictionary below. *)
Lemma calculate_statistics_rows (first : Pandas.Row) (rest : Pandas.DataFrame) :
  let data := first :: rest in
  let current_price := Pandas.Close (last rest first) in
  let previous_price := Pandas.Close first in
  calculate_statistics (Some data) =
  Ret (Some {| Current_Price := current_price;
               Opening_Price := previous_price;
               High := Pandas.max (Pandas.col Pandas.High data);
               Low := Pandas.min (Pandas.col Pandas.Low data);
               Price_Change := (current_price - previous_price)%float;
               Percentage_Change :=
                 ((current_price - previous_price) / previous_price * 100)%float;
               Average_Volume := Pandas.mean (Pandas.col Pandas.Volume data) |}).
Proof.
  intros data current_price previous_price.
  unfold calculate_statistics, data, Pandas.col.
  cbn [Pandas.empty map].
  rewrite iloc_last, iloc_first, last_map.
  reflexivity.
Qed.

(** ** The order of binary64 numbers *)

Section FloatOrder.

Local Open Scope float_scope.

Lemma SFcompare_refl (f : spec_float) : f <> S754_nan -> SFcompare f f = Some Eq.
Proof.
  destruct f as [s|s| |s m e]; intros H; try congruence.
  - reflexivity.
  - destruct s; reflexivity.
  - cbn [SFcompare]. rewrite Z.compare_refl.
    change (Pcompare m m Eq) with (Pos.compare m m). rewrite Pos.compare_refl.
    destruct s; reflexivity.
Qed.

Lemma notna_spec (x : float) : Pandas.notna x = true <-> Prim2SF x <> S754_nan.
Proof.
  unfold Pandas.notna, is_nan. rewrite negb_involutive, eqb_spec. unfold SFeqb. split.
  - intros H E. rewrite E in H. discriminate.
  - intros H. now rewrite SFcompare_refl.
Qed.

Lemma SFleb_total (f g : spec_float) :
  f <> S754_nan -> g <> S754_nan -> SFleb f g = true \/ SFleb g f = true.
Proof.
  unfold SFleb.
  destruct f as [s|s| |s m e], g as [s'|s'| |s' m' e']; intros Hf Hg; try congruence;
    cbn [SFcompare]; try (destruct s; destruct s'; auto; fail);
    try (destruct s; auto; fail); try (destruct s'; auto; fail).
  change (Pcompare m m' Eq) with (Pos.compare m m').
  change (Pcompare m' m Eq) with (Pos.compare m' m).
  rewrite (Z.compare_antisym e e'), (Pos.compare_antisym m m').
  destruct s, s', (e ?= e')%Z, (m ?= m')%positive; cbn; auto.
Qed.

Lemma SFleb_trans (f g h : spec_float) :
  SFleb f g = true -> SFleb g h = true -> SFleb f h = true.
Proof.
  unfold SFleb.
  destruct f as [s|s| |s m e], g as [s'|s'| |s' m' e'], h as [s''|s''| |s'' m'' e''];
    cbn [SFcompare]; try discriminate;
    try (destruct s; try discriminate; try reflexivity;
         destruct s'; try discriminate; try reflexivity;
         destruct s''; try discriminate; reflexivity);
    try (destruct s; try discriminate; try reflexivity;
         destruct s''; try discriminate; reflexivity);
    try (destruct s'; try discriminate; try reflexivity;
         destruct s''; try discriminate; reflexivity);
    try (destruct s; try discriminate; try reflexivity;
         destruct s'; try discriminate; reflexivity).
  change (Pcompare m m' Eq) with (Pos.compare m m').
  change (Pcompare m' m'' Eq) with (Pos.compare m' m'').
  change (Pcompare m m'' Eq) with (Pos.compare m m'').
  destruct s, s', s''; try discriminate; try reflexivity;
    destruct (Z.compare_spec e e'), (Z.compare_spec e' e''), (Z.compare_spec e e'');
    try discriminate; try reflexivity; try lia; subst;
    destruct (Pos.compare_spec m m'), (Pos.compare_spec m' m''),
             (Pos.compare_spec m m''); cbn;
    try discriminate; try reflexivity; try lia.
Qed.

Lemma leb_refl (x : float) : Pandas.notna x = true -> (x <=? x) = true.
Proof.
  intros H. apply notna_spec in H. rewrite leb_spec. unfold SFleb.
  now rewrite SFcompare_refl.
Qed.

Lemma leb_total (x y : float) :
  Pandas.notna x = true -> Pandas.notna y = true -> (x <=? y) = true \/ (y <=? x) = true.
Proof.
  intros Hx Hy. rewrite !leb_spec. apply SFleb_total; now apply notna_spec.
Qed.

Lemma leb_trans (x y z : float) :
  (x <=? y) = true -> (y <=? z) = true -> (x <=? z) = true.
Proof. rewrite !leb_spec. apply SFleb_trans. Qed.

End FloatOrder.

(** ** What [max] and [min] of a column return *)

Section Extremes.

Local Open Scope float_scope.

Lemma maximum_cases (a b : float) :
  Pandas.notna a = true -> Pandas.notna b = true ->
  let m := Pandas.maximum a b in
  (m = a \/ m = b) /\ (a <=? m) = true /\ (b <=? m) = true.
Proof.
  intros Ha Hb. unfold Pandas.maximum. cbv zeta.
  destruct (a <=? b) eqn:E.
  - repeat split; auto using leb_refl.
  - repeat split; auto using leb_refl.
    destruct (leb_total a b Ha Hb) as [H|H]; [congruence|exact H].
Qed.

Lemma minimum_cases (a b : float) :
  Pandas.notna a = true -> Pandas.notna b = true ->
  let m := Pandas.minimum a b in
  (m = a \/ m = b) /\ (m <=? a) = true /\ (m <=? b) = true.
Proof.
  intros Ha Hb. unfold Pandas.minimum. cbv zeta.
  destruct (b <=? a) eqn:E.
  - repeat split; auto using leb_refl.
  - repeat split; auto using leb_refl.
    destruct (leb_total a b Ha Hb) as [H|H]; [exact H|congruence].
Qed.

Lemma fold_maximum (rest : list float) (x : float) :
  Pandas.notna x = true -> (forall y, In y rest -> Pandas.notna y = true) ->
  let m := fold_left Pandas.maximum rest x in
  In m (x :: rest) /\ forall y, In y (x :: rest) -> (y <=? m) = true.
Proof.
  revert x. induction rest as [|z rest IH]; intros x Hx Hrest; cbv zeta.
  - split; [now left|]. intros y [<-|[]]. now apply leb_refl.
  - cbn [fold_left].
    assert (Hz : Pandas.notna z = true) by (apply Hrest; now left).
    destruct (maximum_cases x z Hx Hz) as (Hm & Hxm & Hzm).
    assert (Hn : Pandas.notna (Pandas.maximum x z) = true) by (destruct Hm as [->| ->]; assumption).
    destruct (IH (Pandas.maximum x z) Hn (fun y Hy => Hrest y (or_intror Hy))) as (Hin & Hub).
    split.
    + destruct Hin as [E|Hin].
      * rewrite <- E. destruct Hm as [->| ->]; [now left|right; now left].
      * right. now right.
    + intros y [<-|[<-|Hy]].
      * eapply leb_trans; [exact Hxm|]. apply Hub. now left.
      * eapply leb_trans; [exact Hzm|]. apply Hub. now left.
      * apply Hub. now right.
Qed.

Lemma fold_minimum (rest : list float) (x : float) :
  Pandas.notna x = true -> (forall y, In y rest -> Pandas.notna y = true) ->
  let m := fold_left Pandas.minimum rest x in
  In m (x :: rest) /\ forall y, In y (x :: rest) -> (m <=? y) = true.
Proof.
  revert x. induction rest as [|z rest IH]; intros x Hx Hrest; cbv zeta.
  - split; [now left|]. intros y [<-|[]]. now apply leb_refl.
  - cbn [fold_left].
    assert (Hz : Pandas.notna z = true) by (apply Hrest; now left).
    destruct (minimum_cases x z Hx Hz) as (Hm & Hxm & Hzm).
    assert (Hn : Pandas.notna (Pandas.minimum x z) = true) by (destruct Hm as [->| ->]; assumption).
    destruct (IH (Pandas.minimum x z) Hn (fun y Hy => Hrest y (or_intror Hy))) as (Hin & Hlb).
    split.
    + destruct Hin as [E|Hin].
      * rewrite <- E. destruct Hm as [->| ->]; [now left|right; now left].
      * right. now right.
    + intros y [<-|[<-|Hy]].
      * eapply leb_trans; [|exact Hxm]. apply Hlb. now left.
      * eapply leb_trans; [|exact Hzm]. apply Hlb. now left.
      * apply Hlb. now right.
Qed.

(** Missing values are skipped: among the values present, [max] returns one
    that is at least every other. *)
Lemma max_skips_missing (s : list float) (x : float) :
  In x s -> Pandas.notna x = true ->
  In (Pandas.max s) s /\ Pandas.notna (Pandas.max s) = true /\
  forall y, In y s -> Pandas.notna y = true -> (y <=? Pandas.max s) = true.
Proof.
  intros Hx Hn. unfold Pandas.max.
  assert (Hf : In x (filter Pandas.notna s)) by (apply filter_In; auto).
  destruct (filter Pandas.notna s) as [|x0 rest] eqn:E; [contradiction|].
  assert (Hall : forall y, In y (x0 :: rest) -> In y s /\ Pandas.notna y = true)
    by (intros y Hy; rewrite <- E in Hy; now apply filter_In in Hy).
  destruct (fold_maximum rest x0) as (Hin & Hub).
  - apply Hall. now left.
  - intros y Hy. apply Hall. now right.
  - repeat split.
    + now apply Hall.
    + now apply Hall.
    + intros y Hy Hny. apply Hub. rewrite <- E. apply filter_In. auto.
Qed.

Lemma min_skips_missing (s : list float) (x : float) :
  In x s -> Pandas.notna x = true ->
  In (Pandas.min s) s /\ Pandas.notna (Pandas.min s) = true /\
  forall y, In y s -> Pandas.notna y = true -> (Pandas.min s <=? y) = true.
Proof.
  intros Hx Hn. unfold Pandas.min.
  assert (Hf : In x (filter Pandas.notna s)) by (apply filter_In; auto).
  destruct (filter Pandas.notna s) as [|x0 rest] eqn:E; [contradiction|].
  assert (Hall : forall y, In y (x0 :: rest) -> In y s /\ Pandas.notna y = true)
    by (intros y Hy; rewrite <- E in Hy; now apply filter_In in Hy).
  destruct (fold_minimum rest x0) as (Hin & Hlb).
  - apply Hall. now left.
  - intros y Hy. apply Hall. now right.
  - repeat split.
    + now apply Hall.
    + now apply Hall.
    + intros y Hy Hny. apply Hlb. rewrite <- E. apply filter_In. auto.
Qed.

End Extremes.

(** ** The statistics, claim by claim *)

Section Statistics.

Local Open Scope float_scope.

(** C5: for a null input and for an empty series calculate_statistics returns
    None, without raising; and None is returned for no other input, so a
    series with rows never yields the no-data signal and no-data never yields
    a dictionary of zeros. *)
Theorem calculate_statistics_no_data :
  calculate_statistics None = Ret None /\
  calculate_statistics (Some []) = Ret None /\
  forall data, calculate_statistics data = Ret None <-> (data = None \/ data = Some []).
Proof.
  split; [reflexivity|]. split; [reflexivity|].
  intros [[|first rest]|]; split; intros H; auto.
  - rewrite calculate_statistics_rows in H. discriminate.
  - destruct H; discriminate.
Qed.

(** C2: for every non-empty date-ascending series calculate_statistics returns
    a dictionary whose Current Price is the Close of the last row and whose
    Opening Price is the Close of the first row. *)
Theorem current_and_opening_price (first : Pandas.Row) (rest : Pandas.DataFrame) :
  date_ascending (first :: rest) = true ->
  exists stats,
    calculate_statistics (Some (first :: rest)) = Ret (Some stats) /\
    Current_Price stats = Pandas.Close (last rest first) /\
    Opening_Price stats = Pandas.Close first.
Proof.
  intros _. eexists. split; [apply calculate_statistics_rows|]. split; reflexivity.
Qed.

(** On [two_bars] the first row opens at 98 and closes at 100: the Opening
    Price is 100. *)
Lemma current_and_opening_price_two_bars :
  exists stats,
    calculate_statistics (Some two_bars) = Ret (Some stats) /\
    Current_Price stats = 110 /\ Opening_Price stats = 100.
Proof.
  exact (current_and_opening_price
           (Pandas.mkRow 1 98 105 95 100 1000) [Pandas.mkRow 2 101 112 99 110 2000]
           eq_refl).
Defined.

(** C3: for every non-empty series the Price Change is the binary64 difference
    of the Current Price and the Opening Price, and these two are the closes
    of the last and of the first row as the frame holds them. *)
Theorem price_change_is_difference (first : Pandas.Row) (rest : Pandas.DataFrame) :
  exists stats,
    calculate_statistics (Some (first :: rest)) = Ret (Some stats) /\
    Price_Change stats = Current_Price stats - Opening_Price stats /\
    Price_Change stats = Pandas.Close (last rest first) - Pandas.Close first.
Proof.
  eexists. split; [apply calculate_statistics_rows|]. split; reflexivity.
Qed.

(** C9: for every non-empty series, ascending or not, calculate_statistics
    returns a dictionary with the close of the last row in position as Current
    Price and the close of the first row in position as Opening Price; and two
    frames with the same values row by row, whatever their dates, get the same
    result. *)
Theorem statistics_are_positional (first : Pandas.Row) (rest : Pandas.DataFrame) :
  (exists stats,
     calculate_statistics (Some (first :: rest)) = Ret (Some stats) /\
     Current_Price stats = Pandas.Close (last rest first) /\
     Opening_Price stats = Pandas.Close first) /\
  (forall data',
     map values data' = map values (first :: rest) ->
     calculate_statistics (Some data') = calculate_statistics (Some (first :: rest))).
Proof.
  split.
  - eexists. split; [apply calculate_statistics_rows|]. split; reflexivity.
  - intros [|first' rest'] H; [discriminate|].
    rewrite !calculate_statistics_rows. unfold Pandas.col.
    rewrite (same_values_same_column Pandas.High (fun v => snd (fst (fst (fst v)))) _ _ (fun _ => eq_refl) H).
    rewrite (same_values_same_column Pandas.Low (fun v => snd (fst (fst v))) _ _ (fun _ => eq_refl) H).
    rewrite (same_values_same_column Pandas.Volume snd _ _ (fun _ => eq_refl) H).
    pose proof (same_values_same_column Pandas.Close (fun v => snd (fst v)) _ _
                  (fun _ => eq_refl) H) as HC.
    assert (Hlast : Pandas.Close (last rest' first') = Pandas.Close (last rest first)).
    { rewrite <- (last_map Pandas.Close rest' first'), <- (last_map Pandas.Close rest first).
      cbn [map] in HC. injection HC as -> ->. reflexivity. }
    cbn [map] in HC. injection HC as Hfirst _.
    now rewrite Hfirst, Hlast.
Qed.

Lemma float_of_Z_machine (z : Z) :
  (0 <= z < 2 ^ 63)%Z -> Pandas.float_of_Z z = of_uint63 (Uint63.of_Z z).
Proof.
  intros H. unfold Pandas.float_of_Z.
  rewrite <- (SF2Prim_Prim2SF (of_uint63 (Uint63.of_Z z))), of_uint63_spec.
  replace (Uint63.to_Z (Uint63.of_Z z)) with z; [reflexivity|].
  symmetry. rewrite Uint63.of_Z_spec. apply Z.mod_small. exact H.
Qed.

Lemma sum_nonnegative (s : list Z) :
  (forall v, In v s -> (0 <= v)%Z) -> (0 <= fold_right Z.add 0%Z s)%Z.
Proof.
  induction s as [|v s IH]; intros H; cbn [fold_right]; [lia|].
  pose proof (H v (or_introl eq_refl)).
  pose proof (IH (fun w Hw => H w (or_intror Hw))). lia.
Qed.

(** C4: for every non-empty series with no missing High or Low value and with
    volumes that are counts below 2^53 in total, calculate_statistics returns
    a dictionary whose High is the maximum of the High column, whose Low is
    the minimum of the Low column, and whose Average Volume is the arithmetic
    mean of the Volume column: the sum of the volumes divided by the number
    of rows, both converted to binary64 as the machine converts an integer
    (exactly, within the bound) and the quotient rounded once. *)
Theorem high_low_average_volume (first : Pandas.Row) (rest : Pandas.DataFrame) :
  complete (first :: rest) = true ->
  exact_volumes (first :: rest) = true ->
  exists stats,
    calculate_statistics (Some (first :: rest)) = Ret (Some stats) /\
    maximum_of (High stats) (map Pandas.High (first :: rest)) /\
    minimum_of (Low stats) (map Pandas.Low (first :: rest)) /\
    Average_Volume stats =
      of_uint63 (Uint63.of_Z (fold_right Z.add 0%Z (map Pandas.Volume (first :: rest))))
      / of_uint63 (Uint63.of_Z (Z.of_nat (List.length (first :: rest)))).
Proof.
  intros Hc Hv. unfold complete in Hc. rewrite forallb_forall in Hc.
  assert (HH : forall y, In y (map Pandas.High (first :: rest)) -> Pandas.notna y = true).
  { intros y Hy. apply in_map_iff in Hy as (r & <- & Hr).
    now destruct (andb_prop _ _ (Hc r Hr)). }
  assert (HL : forall y, In y (map Pandas.Low (first :: rest)) -> Pandas.notna y = true).
  { intros y Hy. apply in_map_iff in Hy as (r & <- & Hr).
    now destruct (andb_prop _ _ (Hc r Hr)). }
  unfold exact_volumes in Hv.
  apply andb_prop in Hv as [Hv Hrows]. apply andb_prop in Hv as [Hpos Htotal].
  rewrite forallb_forall in Hpos. apply Z.ltb_lt in Htotal, Hrows.
  assert (Hsum : (0 <= fold_right Z.add 0%Z (map Pandas.Volume (first :: rest)))%Z).
  { apply sum_nonnegative. intros v Hin. apply in_map_iff in Hin as (r & <- & Hr).
    apply Z.leb_le. now apply Hpos. }
  eexists. split; [apply calculate_statistics_rows|]. cbn [High Low Average_Volume].
  unfold Pandas.col. split; [|split].
  - destruct (max_skips_missing (map Pandas.High (first :: rest)) (Pandas.High first))
      as (Hin & _ & Hub); [now left|apply HH; now left|].
    split; [exact Hin|]. intros y Hy. apply Hub; auto.
  - destruct (min_skips_missing (map Pandas.Low (first :: rest)) (Pandas.Low first))
      as (Hin & _ & Hlb); [now left|apply HL; now left|].
    split; [exact Hin|]. intros y Hy. apply Hlb; auto.
  - unfold Pandas.mean, Pandas.sum. rewrite length_map.
    rewrite !float_of_Z_machine; [reflexivity| |].
    + split; [lia|]. eapply Z.lt_trans; [exact Hrows|reflexivity].
    + split; [exact Hsum|]. eapply Z.lt_trans; [exact Htotal|reflexivity].
Qed.

(** On [two_bars]: High 112, Low 95, Average Volume (1000 + 2000) / 2 = 1500. *)
Lemma high_low_average_volume_two_bars :
  exists stats,
    calculate_statistics (Some two_bars) = Ret (Some stats) /\
    maximum_of (High stats) [105; 112] /\
    minimum_of (Low stats) [95; 99] /\
    Average_Volume stats = 1500.
Proof.
  exact (high_low_average_volume
           (Pandas.mkRow 1 98 105 95 100 1000) [Pandas.mkRow 2 101 112 99 110 2000]
           eq_refl eq_refl).
Defined.

Lemma is_zero_spec (x : float) : is_zero x = true -> exists s, Prim2SF x = S754_zero s.
Proof.
  unfold is_zero. rewrite eqb_spec.
  change (Prim2SF zero) with (S754_zero false). unfold SFeqb.
  destruct (Prim2SF x) as [s|s| |s m e]; cbn [SFcompare]; try discriminate.
  - intros _. now exists s.
  - destruct s; discriminate.
  - destruct s; discriminate.
Qed.

Lemma not_finite_spec (x : float) :
  Prim2SF x = S754_nan \/ (exists s, Prim2SF x = S754_infinity s) -> is_finite x = false.
Proof.
  unfold is_finite, is_nan, is_infinity. rewrite !eqb_spec, abs_spec.
  change (Prim2SF infinity) with (S754_infinity false).
  intros [E|[s E]]; rewrite E; [|destruct s]; reflexivity.
Qed.

(** Dividing by a zero gives an infinity or NaN, and so does the product of
    that quotient and 100. *)
Lemma percentage_of_zero_baseline (change baseline : float) :
  is_zero baseline = true -> is_finite (change / baseline * 100) = false.
Proof.
  intros Hz. destruct (is_zero_spec Hz) as [s E].
  apply not_finite_spec. rewrite mul_spec, div_spec, E.
  change (Prim2SF 100) with (S754_finite false 7036874417766400 (-46)).
  destruct (Prim2SF change) as [s'|s'| |s' m e]; cbn; eauto.
Qed.

(** C1, the claim as stated fails: the series [zero_baseline] starts at a
    close of 0, and the call returns a dictionary with an infinite Percentage
    Change. *)
Lemma zero_baseline_returns_infinity :
  calculate_statistics (Some zero_baseline) =
    Ret (Some {| Current_Price := 5; Opening_Price := 0; High := 6; Low := 0;
                 Price_Change := 5; Percentage_Change := infinity;
                 Average_Volume := 600 |}) /\
  ~ zero_baseline_refused.
Proof.
  split; [vm_compute; reflexivity|].
  intros H.
  apply (H (Pandas.mkRow 1 1 2 0 0 500) [Pandas.mkRow 2 4 6 4 5 700]); [reflexivity|].
  eexists. apply calculate_statistics_rows.
Qed.

(** C1, amended: for every non-empty series calculate_statistics returns a
    dictionary whose Percentage Change is (Price Change / Opening Price) * 100
    in binary64, the Opening Price being the first close; no baseline is
    refused, and when the Opening Price is zero the Percentage Change is an
    infinity or NaN. *)
Theorem percentage_change_unguarded (first : Pandas.Row) (rest : Pandas.DataFrame) :
  exists stats,
    calculate_statistics (Some (first :: rest)) = Ret (Some stats) /\
    Opening_Price stats = Pandas.Close first /\
    Percentage_Change stats = Price_Change stats / Opening_Price stats * 100 /\
    (is_zero (Opening_Price stats) = true -> is_finite (Percentage_Change stats) = false).
Proof.
  eexists. split; [apply calculate_statistics_rows|].
  cbn [Opening_Price Percentage_Change Price_Change].
  repeat split. apply percentage_of_zero_baseline.
Qed.

(** The scenarios of the specification. *)
Example scenario_two_bars :
  calculate_statistics
    (Some [Pandas.mkRow 1 100 105 95 100 1000; Pandas.mkRow 2 110 112 99 110 2000]) =
  Ret (Some {| Current_Price := 110; Opening_Price := 100; High := 112; Low := 95;
               Price_Change := 10; Percentage_Change := 10; Average_Volume := 1500 |}).
Proof. vm_compute. reflexivity. Qed.

Example scenario_single_bar :
  calculate_statistics (Some [Pandas.mkRow 1 50 55 45 50 500]) =
  Ret (Some {| Current_Price := 50; Opening_Price := 50; High := 55; Low := 45;
               Price_Change := 0; Percentage_Change := 0; Average_Volume := 500 |}).
Proof. vm_compute. reflexivity. Qed.

(** A flat series at 0 gives 0/0: NaN. *)
Example flat_zero_is_nan :
  option_map Percentage_Change
    match calculate_statistics
            (Some [Pandas.mkRow 1 0 0 0 0 10; Pandas.mkRow 2 0 0 0 0 10]) with
    | Ret r => r
    | Raise _ => None
    end = Some nan.
Proof. vm_compute. reflexivity. Qed.

(** The rows of [two_bars] in reverse: the Current Price is the older close. *)
Example descending_is_not_sorted :
  date_ascending descending = false /\
  exists stats,
    calculate_statistics (Some descending) = Ret (Some stats) /\
    Current_Price stats = 100 /\ Opening_Price stats = 110 /\ Price_Change stats = -10.
Proof.
  split; [reflexivity|]. eexists. split; [apply calculate_statistics_rows|].
  repeat split.
Qed.

End Statistics.

(** ** The date range *)

Section DateRange.

Local Open Scope Z_scope.

Lemma back_days (t n : Z) :
  strftime_day (datetime t) - strftime_day (minus_days (datetime t) n) = n.
Proof.
  cbn [strftime_day minus_days].
  replace (t - n * us_per_day) with (t + (- n) * us_per_day) by ring.
  rewrite Z.div_add by (unfold us_per_day; lia). ring.
Qed.

(** C8: with "1 Week" selected the start is 14 days before now, with "1 Month"
    35 days, "3 Months" 95, "6 Months" 185 and "1 Year" 370; the end is now in
    each case; and the days requested from the provider are that many, more
    than the longest span the name stands for. *)
Theorem preset_windows (inp : Inputs) :
  let window period := date_window (with_period inp period) in
  let back n := (datetime (now inp - n * us_per_day), datetime (now inp)) in
  (window "1 Week" = back 14 /\
   window "1 Month" = back 35 /\
   window "3 Months" = back 95 /\
   window "6 Months" = back 185 /\
   window "1 Year" = back 370)%string /\
  (fetched_days (with_period inp "1 Week") = 14 /\
   fetched_days (with_period inp "1 Month") = 35 /\
   fetched_days (with_period inp "3 Months") = 95 /\
   fetched_days (with_period inp "6 Months") = 185 /\
   fetched_days (with_period inp "1 Year") = 370)%string /\
  (forall period, In period periods -> period <> "Custom"%string ->
     snd (date_window (with_period inp period)) = datetime (now inp) /\
     named_days period < fetched_days (with_period inp period)).
Proof.
  cbv zeta. split; [|split].
  - repeat split.
  - repeat split; apply back_days.
  - intros period Hin Hc.
    unfold periods in Hin. cbn [In] in Hin.
    destruct Hin as [<-|[<-|[<-|[<-|[<-|[<-|[]]]]]]]; try congruence;
      (split; [reflexivity|]);
      unfold fetched_days, start_date, end_date;
      cbn [date_window with_period date_range now String.eqb Ascii.eqb Bool.eqb fst snd named_days];
      rewrite back_days; reflexivity.
Qed.

End DateRange.

(** ** One run of the script *)

Section Run.

Variables (inp : Inputs) (yf : Provider).

Lemma get_stock_data_run (symbol : string) (path : list container) (s : state) :
  get_stock_data yf symbol (start_date inp) (end_date inp) path s =
  match fetch_of inp yf symbol with
  | inl message =>
      ({| page := page s ++ [(path, message)]; all_data := all_data s |}, Ret (None, None))
  | inr (data, stock_info) => (s, Ret (Some data, Some stock_info))
  end.
Proof.
  unfold get_stock_data, fetch_of, try_except, bind, lift, st, ret.
  destruct (history yf symbol _ _) as [data|e]; [|reflexivity].
  destruct (Pandas.empty data); [reflexivity|].
  destruct (info yf symbol); reflexivity.
Qed.

Lemma fetch_of_rows (symbol : string) (data : Pandas.DataFrame) (stock_info : Info) :
  fetch_of inp yf symbol = inr (data, stock_info) -> Pandas.empty data = false.
Proof.
  unfold fetch_of.
  destruct (history yf symbol _ _) as [d|e]; [|discriminate].
  destruct (Pandas.empty d) eqn:E; [discriminate|].
  destruct (info yf symbol); [|discriminate].
  intros H. injection H as <- _. exact E.
Qed.

(** The statistics a frame with rows gets. *)
Lemma calculate_statistics_returns (data : Pandas.DataFrame) :
  Pandas.empty data = false -> exists stats, calculate_statistics (Some data) = Ret (Some stats).
Proof.
  destruct data as [|first rest]; [discriminate|].
  intros _. eexists. apply calculate_statistics_rows.
Qed.

Lemma render_panel_run (ct symbol : string) (data : Pandas.DataFrame) (stats : Statistics)
    (path : list container) (s : state) :
  render_panel ct symbol data stats path s =
  ({| page := page s ++ rendered (render_panel ct symbol data stats) path;
      all_data := all_data s |}, Ret tt).
Proof.
  unfold rendered, rendered_with, render_panel.
  cbv [bind within st ret fst snd page all_data].
  cbn [app].
  rewrite <- !app_assoc. reflexivity.
Qed.

(** What a tab holds, by what the provider has for its symbol. *)
Lemma tab_body_rendered (symbol : string) (path : list container) :
  rendered (tab_body inp yf symbol) path =
  match fetch_of inp yf symbol with
  | inl message =>
      [ (path, subheader (symbol ++ " Stock Analysis"));
        (path ++ [Spinner ("Loading data for " ++ symbol ++ "...")], message);
        (path, error ("No data available for " ++ symbol)) ]
  | inr (data, _) =>
      match calculate_statistics (Some data) with
      | Ret (Some stats) =>
          (path, subheader (symbol ++ " Stock Analysis"))
            :: rendered (render_panel (chart_type inp) symbol data stats) path
      | _ => [ (path, subheader (symbol ++ " Stock Analysis")) ]
      end
  end.
Proof.
  unfold rendered at 1. unfold rendered_with, tab_body.
  unfold bind at 1. unfold st at 1. cbn [page all_data app].
  unfold bind at 1. unfold within at 1. rewrite get_stock_data_run.
  destruct (fetch_of inp yf symbol) as [message|[data stock_info]] eqn:E.
  - reflexivity.
  - cbn [fst]. rewrite (fetch_of_rows _ E). cbn [negb].
    destruct (calculate_statistics_returns data (fetch_of_rows _ E)) as [stats Hs].
    rewrite Hs.
    unfold bind, set_all_data, lift, subscriptable. cbn [page all_data].
    rewrite render_panel_run. reflexivity.
Qed.

(** A tab never raises; it adds what it writes to the page and may store its
    frame. *)
Lemma tab_body_run (symbol : string) (path : list container) (s : state) :
  tab_body inp yf symbol path s =
  ({| page := page s ++ rendered (tab_body inp yf symbol) path;
      all_data := stored inp yf symbol (all_data s) |}, Ret tt).
Proof.
  rewrite tab_body_rendered. unfold stored, tab_body.
  unfold bind at 1. unfold st at 1.
  unfold bind at 1. unfold within at 1. rewrite get_stock_data_run.
  destruct (fetch_of inp yf symbol) as [message|[data stock_info]] eqn:E.
  - cbn [fst page all_data]. unfold st. cbn [page all_data].
    rewrite <- !app_assoc. reflexivity.
  - cbn [fst]. rewrite (fetch_of_rows _ E). cbn [negb].
    destruct (calculate_statistics_returns data (fetch_of_rows _ E)) as [stats Hs].
    rewrite Hs.
    unfold bind, set_all_data, lift, subscriptable. cbn [page all_data].
    rewrite render_panel_run. cbn [page all_data].
    rewrite <- !app_assoc. reflexivity.
Qed.

(** The loop over the tabs never raises either: the page grows by each tab's
    own writing, in order. *)
Lemma for_each_tab_run (items : list (nat * string)) (path : list container) (s : state) :
  for_each items
    (fun item => let (i, symbol) := item : nat * string in
                 within (Tab i) (tab_body inp yf symbol)) path s =
  ({| page := page s ++ tabs_written inp yf items path;
      all_data := tabs_stored inp yf items (all_data s) |}, Ret tt).
Proof.
  revert s. induction items as [|[i symbol] items IH]; intros s.
  - unfold tabs_written, tabs_stored. cbn. rewrite app_nil_r. now destruct s.
  - cbn [for_each]. unfold bind, within. rewrite tab_body_run, IH.
    cbn [page all_data]. unfold tabs_written, tabs_stored.
    cbn [flat_map fold_left fst snd]. now rewrite <- app_assoc.
Qed.

(** The loop over the sheets: every write returns and the writer holds the
    items, or the first write that raises ends it. *)
Lemma to_excel_each_writes (all writer : list (string * Pandas.DataFrame)) :
  writes_all yf all = true -> to_excel_each yf all writer = Ret (writer ++ all).
Proof.
  revert writer. induction all as [|[symbol data] all IH]; intros writer H.
  - cbn. now rewrite app_nil_r.
  - cbn [writes_all forallb fst snd] in H. cbn [to_excel_each].
    destruct (to_excel yf symbol data) as [[]|e]; [|discriminate].
    cbn [py_bind]. rewrite IH by exact H. now rewrite <- app_assoc.
Qed.

Lemma to_excel_each_raises (all writer : list (string * Pandas.DataFrame)) :
  writes_all yf all = false ->
  exists symbol data e,
    In (symbol, data) all /\ to_excel yf symbol data = Raise e /\
    to_excel_each yf all writer = Raise e.
Proof.
  revert writer. induction all as [|[symbol data] all IH]; intros writer H; [discriminate|].
  cbn [writes_all forallb fst snd] in H. cbn [to_excel_each].
  destruct (to_excel yf symbol data) as [[]|e] eqn:E.
  - cbn [py_bind]. destruct (IH (writer ++ [(symbol, data)]) H) as (k & d & e & Hin & He & Hr).
    exists k, d, e. split; [now right|]. split; assumption.
  - exists symbol, data, e. split; [now left|]. split; [exact E|reflexivity].
Qed.

Lemma to_excel_each_returned (all writer sheets : list (string * Pandas.DataFrame)) :
  to_excel_each yf all writer = Ret sheets ->
  sheets = writer ++ all /\ writes_all yf all = true.
Proof.
  intros H. destruct (writes_all yf all) eqn:E.
  - rewrite (to_excel_each_writes all writer E) in H. injection H as <-. now split.
  - destruct (to_excel_each_raises all writer E) as (k & d & e & _ & _ & Hr).
    rewrite Hr in H. discriminate.
Qed.

(** The export adds what it writes to the page, leaves [all_data] alone, and
    ends as it ends on a fresh page. *)
Lemma export_run (path : list container) (s : state) :
  export inp yf path s =
  ({| page := page s ++ rendered_with (all_data s) (export inp yf) path;
      all_data := all_data s |}, outcome_with (all_data s) (export inp yf) path).
Proof.
  destruct s as [pg [|item all]]; unfold rendered_with, outcome_with, export;
    cbv [bind within st ret get_all_data lift]; cbn [fst snd page all_data app].
  - rewrite <- !app_assoc. reflexivity.
  - destruct (export_button inp);
      [destruct (export_format inp =? "CSV")%string;
       [|destruct (to_excel_each yf (item :: all) []) as [sheets|e]]|];
      cbn [fst snd page all_data app]; rewrite <- ?app_assoc; reflexivity.
Qed.

(** How the export ends: it raises only from the Excel writer. *)
Lemma export_outcome (all : dict Pandas.DataFrame) (path : list container) :
  outcome_with all (export inp yf) path =
  match all with
  | [] => Ret tt
  | _ :: _ =>
      if export_button inp && negb (export_format inp =? "CSV")%string then
        match to_excel_each yf all [] with
        | Ret _ => Ret tt
        | Raise e => Raise e
        end
      else Ret tt
  end.
Proof.
  destruct all as [|item all]; unfold outcome_with, export;
    cbv [bind within st ret get_all_data lift]; cbn [fst snd page all_data app];
    [reflexivity|].
  destruct (export_button inp);
    [destruct (export_format inp =? "CSV")%string;
     [|destruct (to_excel_each yf (item :: all) []) as [sheets|e]]|];
    reflexivity.
Qed.

(** The state a run ends in. *)
Lemma run_state :
  run inp yf =
  match stock_symbols inp with
  | [] =>
      ({| page := [([], warning "⚠️ Please select at least one stock symbol from the sidebar to begin analysis.")];
          all_data := [] |}, Ret tt)
  | _ :: _ =>
      let all := tabs_stored inp yf (enumerate (stock_symbols inp)) [] in
      ({| page := tabs_written inp yf (enumerate (stock_symbols inp)) []
                  ++ rendered_with all (export inp yf) [];
          all_data := all |}, outcome_with all (export inp yf) [])
  end.
Proof.
  unfold run, main_content.
  destruct (stock_symbols inp) as [|symbol symbols] eqn:E; [reflexivity|].
  unfold bind at 1. unfold new_all_data at 1. cbn [blank page].
  unfold bind at 1. unfold tabs_loop. rewrite E, for_each_tab_run, export_run.
  reflexivity.
Qed.

(** The loop over the tabs never raises. *)
Lemma tabs_loop_returns (path : list container) (s : state) :
  snd (tabs_loop inp yf path s) = Ret tt.
Proof. unfold tabs_loop. now rewrite for_each_tab_run. Qed.

(** A run ends as its export ends. *)
Lemma run_outcome :
  snd (run inp yf) =
  match all_data (fst (run inp yf)) with
  | [] => Ret tt
  | _ :: _ =>
      if export_button inp && negb (export_format inp =? "CSV")%string then
        match to_excel_each yf (all_data (fst (run inp yf))) [] with
        | Ret _ => Ret tt
        | Raise e => Raise e
        end
      else Ret tt
  end.
Proof.
  rewrite run_state. destruct (stock_symbols inp) as [|symbol0 symbols]; [reflexivity|].
  cbv zeta. cbn [fst snd all_data]. apply export_outcome.
Qed.

(** *** What lands under one tab *)

Lemma in_tab_app (i : nat) (pg pg' : list placed) :
  in_tab i (pg ++ pg') = in_tab i pg ++ in_tab i pg'.
Proof. apply filter_app. Qed.

Lemma in_tab_under (i j : nat) (pg : list placed) :
  Forall (fun pe : placed => exists inner, fst pe = Tab j :: inner) pg ->
  in_tab i pg = if Nat.eqb i j then pg else [].
Proof.
  induction 1 as [|[path e] pg [inner Hp] _ IH].
  - now destruct (Nat.eqb i j).
  - cbn [fst] in Hp. subst path. unfold in_tab in *. cbn [filter fst]. rewrite IH.
    now destruct (Nat.eqb i j).
Qed.

Lemma render_panel_under (j : nat) (ct symbol : string) (data : Pandas.DataFrame)
    (stats : Statistics) :
  Forall (fun pe : placed => exists inner, fst pe = Tab j :: inner)
         (rendered (render_panel ct symbol data stats) [Tab j]).
Proof.
  unfold rendered, rendered_with, render_panel.
  cbv [bind within st ret fst snd page all_data]. cbn [app].
  repeat (apply Forall_cons; [eexists; reflexivity|]). apply Forall_nil.
Qed.

Lemma tab_body_under (j : nat) (symbol : string) :
  Forall (fun pe : placed => exists inner, fst pe = Tab j :: inner)
         (rendered (tab_body inp yf symbol) [Tab j]).
Proof.
  rewrite tab_body_rendered.
  destruct (fetch_of inp yf symbol) as [message|[data stock_info]].
  - cbn [app]. repeat (apply Forall_cons; [eexists; reflexivity|]). apply Forall_nil.
  - destruct (calculate_statistics (Some data)) as [[stats|]|e];
      (apply Forall_cons; [eexists; reflexivity|]);
      [apply render_panel_under|apply Forall_nil|apply Forall_nil].
Qed.

Lemma in_tab_export (i : nat) (all : dict Pandas.DataFrame) :
  in_tab i (rendered_with all (export inp yf) []) = [].
Proof.
  unfold rendered_with, export.
  cbv [bind within st ret get_all_data lift]. cbn [fst snd page all_data app].
  destruct all as [|item all]; [reflexivity|].
  destruct (export_button inp);
    [destruct (export_format inp =? "CSV")%string;
     [|destruct (to_excel_each yf (item :: all) []) as [sheets|e]]|];
    reflexivity.
Qed.

Lemma in_tab_tabs_written (i : nat) (symbols : list string) (k : nat) :
  in_tab i (tabs_written inp yf (combine (seq k (List.length symbols)) symbols) []) =
  if (k <=? i)%nat then
    match nth_error symbols (i - k) with
    | Some symbol => rendered (tab_body inp yf symbol) [Tab i]
    | None => []
    end
  else [].
Proof.
  revert k. induction symbols as [|symbol symbols IH]; intros k.
  - cbn. destruct (k <=? i)%nat; [|reflexivity]. now destruct (i - k)%nat.
  - cbn [List.length seq combine]. unfold tabs_written in *. cbn [flat_map fst snd app].
    rewrite in_tab_app, (in_tab_under i (tab_body_under k symbol)), IH.
    destruct (Nat.eqb_spec i k) as [->|Hik].
    + rewrite Nat.leb_refl, Nat.sub_diag. cbn [nth_error].
      replace (S k <=? k)%nat with false by (symmetry; apply Nat.leb_gt; lia).
      apply app_nil_r.
    + cbn [app]. destruct (Nat.leb_spec k i) as [Hle|Hgt].
      * replace (S k <=? i)%nat with true by (symmetry; apply Nat.leb_le; lia).
        replace (i - k)%nat with (S (i - S k)) by lia. reflexivity.
      * replace (S k <=? i)%nat with false by (symmetry; apply Nat.leb_gt; lia).
        reflexivity.
Qed.

(** The tab of the symbol at position [i] holds what the body of the loop
    writes for that symbol alone on a fresh page. *)
Lemma tab_of_run (i : nat) (symbol : string) :
  nth_error (stock_symbols inp) i = Some symbol ->
  in_tab i (page (fst (run inp yf))) = rendered (tab_body inp yf symbol) [Tab i].
Proof.
  intros Hi. rewrite run_state.
  destruct (stock_symbols inp) as [|symbol0 symbols] eqn:E.
  - now destruct i.
  - cbv zeta. cbn [fst page]. rewrite in_tab_app, in_tab_export, app_nil_r.
    unfold enumerate. rewrite in_tab_tabs_written.
    cbn [Nat.leb]. now rewrite Nat.sub_0_r, Hi.
Qed.

End Run.

Lemma same_answers_same_tab (inp : Inputs) (yf yf' : Provider) (symbol : string)
    (path : list container) :
  same_answers yf yf' symbol ->
  rendered (tab_body inp yf symbol) path = rendered (tab_body inp yf' symbol) path.
Proof.
  intros [Hh Hi]. rewrite !tab_body_rendered.
  unfold fetch_of. now rewrite Hh, Hi.
Qed.

(** C7: the loop over the tabs never raises, whatever the provider does and
    on whatever page it starts; in a run, the tab of a symbol whose fetch
    failed or came back empty holds the message of the failure and "No data
    available for" the symbol; the tab of a symbol whose fetch succeeded holds
    the panel drawn from the statistics of its own frame; and no tab changes
    when the provider's answers for the other symbols do. *)
Theorem tabs_are_isolated (inp : Inputs) (yf : Provider) :
  (forall path s, snd (tabs_loop inp yf path s) = Ret tt) /\
  forall (i : nat) (symbol : string),
    nth_error (stock_symbols inp) i = Some symbol ->
    let tab := in_tab i (page (fst (run inp yf))) in
    (forall message, fetch_of inp yf symbol = inl message ->
       tab = [ ([Tab i], subheader (symbol ++ " Stock Analysis"));
               ([Tab i; Spinner ("Loading data for " ++ symbol ++ "...")], message);
               ([Tab i], error ("No data available for " ++ symbol)) ]) /\
    (forall data stock_info, fetch_of inp yf symbol = inr (data, stock_info) ->
       exists stats,
         calculate_statistics (Some data) = Ret (Some stats) /\
         tab = ([Tab i], subheader (symbol ++ " Stock Analysis"))
                 :: rendered (render_panel (chart_type inp) symbol data stats) [Tab i]) /\
    (forall yf', same_answers yf yf' symbol ->
       in_tab i (page (fst (run inp yf'))) = tab).
Proof.
  split; [intros path s; apply tabs_loop_returns|].
  intros i symbol Hi tab. subst tab. rewrite (tab_of_run inp yf i Hi).
  split; [|split].
  - intros message E. rewrite tab_body_rendered, E. reflexivity.
  - intros data stock_info E.
    destruct (calculate_statistics_returns data (fetch_of_rows inp yf symbol E)) as [stats Hs].
    exists stats. split; [exact Hs|].
    rewrite tab_body_rendered, E, Hs. reflexivity.
  - intros yf' H. rewrite (tab_of_run inp yf' i Hi).
    symmetry. now apply same_answers_same_tab.
Qed.

(** ** What the export holds *)

Section ExportFiles.

Lemma keys_dict_set (V : Type) (d : dict V) (k' : string) (v : V) (k : string) :
  In k (keys (dict_set d k' v)) <-> k = k' \/ In k (keys d).
Proof.
  unfold keys. induction d as [|[k0 v0] d IH]; cbn [dict_set map fst In].
  - intuition congruence.
  - destruct (String.eqb_spec k0 k') as [->|Hne]; cbn [map fst In].
    + intuition congruence.
    + rewrite IH. intuition congruence.
Qed.

Lemma in_dict_set (V : Type) (d : dict V) (k' : string) (v : V) (k : string) (x : V) :
  In (k, x) (dict_set d k' v) -> (k, x) = (k', v) \/ In (k, x) d.
Proof.
  induction d as [|[k0 v0] d IH]; cbn [dict_set In].
  - intuition.
  - destruct (String.eqb k0 k'); cbn [In]; intuition.
Qed.

Lemma in_keys (V : Type) (d : dict V) (k : string) :
  In k (keys d) <-> exists v, In (k, v) d.
Proof.
  unfold keys. rewrite in_map_iff. split.
  - intros [[k0 v] [E H]]. cbn in E. subst. now exists v.
  - intros [v H]. now exists (k, v).
Qed.

Variables (inp : Inputs) (yf : Provider).

Lemma stored_keys (symbol : string) (all : dict Pandas.DataFrame) (k : string) :
  In k (keys (stored inp yf symbol all)) <->
  In k (keys all) \/ (k = symbol /\ succeeded inp yf symbol = true).
Proof.
  unfold stored, succeeded.
  destruct (fetch_of inp yf symbol) as [message|[data stock_info]].
  - intuition discriminate.
  - rewrite keys_dict_set. intuition.
Qed.

Lemma stored_with_rows (symbol : string) (all : dict Pandas.DataFrame) :
  all_with_rows all -> all_with_rows (stored inp yf symbol all).
Proof.
  unfold stored. intros Hall.
  destruct (fetch_of inp yf symbol) as [message|[data stock_info]] eqn:E; [exact Hall|].
  intros k x Hin. apply in_dict_set in Hin as [Heq|Hin].
  - injection Heq as -> ->. exact (fetch_of_rows inp yf symbol E).
  - exact (Hall k x Hin).
Qed.

Lemma tabs_stored_keys (items : list (nat * string)) (all : dict Pandas.DataFrame)
    (k : string) :
  In k (keys (tabs_stored inp yf items all)) <->
  In k (keys all) \/ (In k (map snd items) /\ succeeded inp yf k = true).
Proof.
  unfold tabs_stored. revert all.
  induction items as [|[i symbol] items IH]; intros all; cbn [fold_left map snd In].
  - intuition.
  - rewrite IH, stored_keys. intuition (subst; auto).
Qed.

Lemma tabs_stored_with_rows (items : list (nat * string)) (all : dict Pandas.DataFrame) :
  all_with_rows all -> all_with_rows (tabs_stored inp yf items all).
Proof.
  unfold tabs_stored. revert all.
  induction items as [|[i symbol] items IH]; intros all Hall; cbn [fold_left]; [exact Hall|].
  apply IH. now apply stored_with_rows.
Qed.

Lemma snd_enumerate (A : Type) (xs : list A) : map snd (enumerate xs) = xs.
Proof.
  unfold enumerate. generalize 0%nat.
  induction xs as [|x xs IH]; intros k; [reflexivity|].
  cbn [List.length seq combine map snd]. now rewrite IH.
Qed.

Lemma combine_all_rows (all : dict Pandas.DataFrame) :
  combine_all all =
  flat_map (fun item : string * Pandas.DataFrame => map (fun r => (r, fst item)) (snd item)) all.
Proof.
  unfold combine_all.
  assert (H : forall acc,
             fold_left
               (fun combined_data item =>
                  let (symbol, data) := item : string * Pandas.DataFrame in
                  combined_data ++ map (fun r => (r, symbol)) data) all acc =
             acc ++ flat_map (fun item : string * Pandas.DataFrame =>
                                map (fun r => (r, fst item)) (snd item)) all).
  { induction all as [|[symbol data] all IH]; intros acc; cbn [fold_left flat_map fst snd].
    - now rewrite app_nil_r.
    - now rewrite IH, app_assoc. }
  apply H.
Qed.

Lemma write_sheets_items (all : dict Pandas.DataFrame) : write_sheets all = all.
Proof.
  unfold write_sheets.
  assert (H : forall acc : list (string * Pandas.DataFrame),
             fold_left (fun sheets item => sheets ++ [item]) all acc = acc ++ all).
  { induction all as [|item all IH]; intros acc; cbn [fold_left].
    - now rewrite app_nil_r.
    - rewrite IH, <- app_assoc. reflexivity. }
  apply H.
Qed.

(** The Symbol column of the combined frame names the keys of [all_data],
    every frame having rows. *)
Lemma combine_all_symbols (all : dict Pandas.DataFrame) (symbol : string) :
  all_with_rows all ->
  In symbol (map snd (combine_all all)) <-> In symbol (keys all).
Proof.
  intros Hall. rewrite combine_all_rows, in_keys, in_map_iff. split.
  - intros [[r k] [E Hin]]. cbn in E. subst k.
    apply in_flat_map in Hin as [[k data] [Hk Hr]]. cbn [fst snd] in Hr.
    apply in_map_iff in Hr as [r' [E _]]. injection E as _ ->. now exists data.
  - intros [data Hin]. pose proof (Hall _ _ Hin) as Hrows.
    destruct data as [|first rest]; [discriminate|].
    exists (first, symbol). split; [reflexivity|].
    apply in_flat_map. exists (symbol, first :: rest). split; [exact Hin|]. now left.
Qed.

Lemma fetch_of_message (symbol : string) (message : element) :
  fetch_of inp yf symbol = inl message ->
  exists text, message = warning text \/ message = error text.
Proof.
  unfold fetch_of.
  destruct (history yf symbol _ _) as [data|e].
  - destruct (Pandas.empty data).
    + intros H. injection H as <-. eauto.
    + destruct (info yf symbol); [discriminate|]. intros H. injection H as <-. eauto.
  - intros H. injection H as <-. eauto.
Qed.

Lemma downloads_app (pg pg' : list placed) : downloads (pg ++ pg') = downloads pg ++ downloads pg'.
Proof. apply flat_map_app. Qed.

Lemma render_panel_downloads (ct symbol : string) (data : Pandas.DataFrame)
    (stats : Statistics) (path : list container) :
  downloads (rendered (render_panel ct symbol data stats) path) = [].
Proof.
  unfold rendered, rendered_with, render_panel.
  cbv [bind within st ret fst snd page all_data]. reflexivity.
Qed.

Lemma tab_body_downloads (symbol : string) (path : list container) :
  downloads (rendered (tab_body inp yf symbol) path) = [].
Proof.
  rewrite tab_body_rendered.
  destruct (fetch_of inp yf symbol) as [message|[data stock_info]] eqn:E.
  - destruct (fetch_of_message symbol E) as [text [-> | ->]]; reflexivity.
  - destruct (calculate_statistics (Some data)) as [[stats|]|e]; [|reflexivity|reflexivity].
    cbn [downloads flat_map snd app].
    apply render_panel_downloads.
Qed.

Lemma tabs_written_downloads (items : list (nat * string)) (path : list container) :
  downloads (tabs_written inp yf items path) = [].
Proof.
  unfold tabs_written. induction items as [|item items IH]; [reflexivity|].
  cbn [flat_map]. now rewrite downloads_app, tab_body_downloads, IH.
Qed.

Lemma tabs_written_under (items : list (nat * string)) (pe : placed) :
  In pe (tabs_written inp yf items []) -> exists j inner, fst pe = Tab j :: inner.
Proof.
  unfold tabs_written. intros H. apply in_flat_map in H as [[j symbol] [_ H]].
  cbn [fst snd app] in H.
  pose proof (tab_body_under inp yf j symbol) as Hall.
  rewrite Forall_forall in Hall. destruct (Hall pe H) as [inner E]. eauto.
Qed.

Lemma export_downloads (all : dict Pandas.DataFrame) :
  downloads (rendered_with all (export inp yf) []) =
  match all with
  | [] => []
  | _ :: _ =>
      if export_button inp then
        if (export_format inp =? "CSV")%string then [csv_of (combine_all all)]
        else if writes_all yf all then [xlsx_of (write_sheets all)]
        else []
      else []
  end.
Proof.
  unfold rendered_with, export.
  cbv [bind within st ret get_all_data lift]. cbn [fst snd page all_data app].
  destruct all as [|item all]; [reflexivity|].
  destruct (export_button inp); [|reflexivity].
  destruct (export_format inp =? "CSV")%string; [reflexivity|].
  destruct (writes_all yf (item :: all)) eqn:E.
  - rewrite (to_excel_each_writes yf (item :: all) [] E), write_sheets_items. reflexivity.
  - destruct (to_excel_each_raises yf (item :: all) [] E) as (k & d & e & _ & _ & Hr).
    rewrite Hr. reflexivity.
Qed.

Lemma export_offered_rows (all : dict Pandas.DataFrame) :
  export_offered (rendered_with all (export inp yf) []) <-> all <> [].
Proof.
  unfold export_offered, rendered_with, export.
  cbv [bind within st ret get_all_data lift]. cbn [fst snd page all_data app].
  destruct all as [|item all].
  - cbn [In]. split; [|congruence]. intros [H|[H|[]]]; discriminate.
  - split; [discriminate|]. intros _.
    destruct (export_button inp);
      [destruct (export_format inp =? "CSV")%string;
       [|destruct (to_excel_each yf (item :: all) []) as [sheets|e]]|];
      cbn [fst snd page all_data app In]; auto.
Qed.

Lemma keys_rows (V : Type) (d : dict V) : d <> [] <-> exists k, In k (keys d).
Proof.
  destruct d as [|[k v] d]; cbn.
  - split; [congruence|]. intros [k []].
  - split; [eauto|discriminate].
Qed.

End ExportFiles.

(** C10: [all_data] holds exactly the selected symbols whose fetch succeeded
    with data; every export file offered is the CSV text of the combined
    frames or the workbook of [all_data], and the symbols it holds are exactly
    those; the export is offered exactly when some selected symbol succeeded;
    once requested, with a symbol fetched, one file is offered: the CSV, or
    the workbook when the Excel writer takes every frame.  A symbol that
    failed never makes the export raise: a run returns whenever the export is
    not requested, or the format is CSV, or the writer takes every frame, and
    when it raises, the exception is the writer's, on the frame of a fetched
    symbol. *)
Theorem export_holds_fetched_symbols (inp : Inputs) (yf : Provider) :
  let final := fst (run inp yf) in
  (export_button inp = false \/ export_format inp = "CSV"%string \/
   writes_all yf (all_data final) = true -> snd (run inp yf) = Ret tt) /\
  (forall e, snd (run inp yf) = Raise e ->
     exists symbol data,
       fetched inp yf symbol /\ In (symbol, data) (all_data final) /\
       to_excel yf symbol data = Raise e) /\
  (forall symbol, In symbol (keys (all_data final)) <-> fetched inp yf symbol) /\
  (forall a, In a (downloads (page final)) ->
     (a = csv_of (combine_all (all_data final)) \/
      a = xlsx_of (write_sheets (all_data final))) /\
     forall symbol, In symbol (symbols_of a) <-> fetched inp yf symbol) /\
  (export_offered (page final) <-> exists symbol, fetched inp yf symbol) /\
  ((exists symbol, fetched inp yf symbol) -> export_button inp = true ->
   export_format inp = "CSV"%string \/ writes_all yf (all_data final) = true ->
   downloads (page final) =
     [ if (export_format inp =? "CSV")%string
       then csv_of (combine_all (all_data final))
       else xlsx_of (write_sheets (all_data final)) ]).
Proof.
  cbv zeta.
  assert (Hkeys : forall symbol,
             In symbol (keys (all_data (fst (run inp yf)))) <-> fetched inp yf symbol).
  { intros symbol. unfold fetched. rewrite run_state.
    destruct (stock_symbols inp) as [|symbol0 symbols] eqn:E.
    - cbn. intuition.
    - cbv zeta. cbn [fst all_data].
      rewrite tabs_stored_keys, snd_enumerate. cbn [keys map In]. intuition. }
  assert (Hrows : all_with_rows (all_data (fst (run inp yf)))).
  { rewrite run_state. destruct (stock_symbols inp) as [|symbol0 symbols].
    - intros k data [].
    - cbv zeta. cbn [fst all_data]. apply tabs_stored_with_rows. intros k data []. }
  assert (Hdown : downloads (page (fst (run inp yf))) =
                  match all_data (fst (run inp yf)) with
                  | [] => []
                  | _ :: _ =>
                      if export_button inp then
                        if (export_format inp =? "CSV")%string
                        then [csv_of (combine_all (all_data (fst (run inp yf))))]
                        else if writes_all yf (all_data (fst (run inp yf)))
                             then [xlsx_of (write_sheets (all_data (fst (run inp yf))))]
                             else []
                      else []
                  end).
  { rewrite run_state. destruct (stock_symbols inp) as [|symbol0 symbols]; [reflexivity|].
    cbv zeta. cbn [fst page all_data].
    now rewrite downloads_app, tabs_written_downloads, export_downloads. }
  pose proof (run_outcome inp yf) as Hout.
  split; [|split; [|split; [exact Hkeys|split; [|split]]]].
  - intros H. rewrite Hout.
    destruct (all_data (fst (run inp yf))) as [|item all] eqn:E; [reflexivity|].
    rewrite <- E in *. clear E.
    destruct H as [->|[Hf|Hw]]; [reflexivity| |].
    + apply String.eqb_eq in Hf. rewrite Hf. now rewrite andb_false_r.
    + rewrite (to_excel_each_writes yf _ [] Hw).
      now destruct (export_button inp && negb (export_format inp =? "CSV")%string).
  - intros e H. rewrite Hout in H.
    destruct (all_data (fst (run inp yf))) as [|item all] eqn:E; [discriminate|].
    rewrite <- E in *.
    destruct (export_button inp && negb (export_format inp =? "CSV")%string);
      [|discriminate].
    destruct (writes_all yf (all_data (fst (run inp yf)))) eqn:Hw.
    + rewrite (to_excel_each_writes yf _ [] Hw) in H. discriminate.
    + destruct (to_excel_each_raises yf _ [] Hw) as (k & d & e' & Hin & He & Hr).
      rewrite Hr in H. injection H as ->.
      exists k, d. split; [|split; assumption].
      apply Hkeys. apply in_keys. now exists d.
  - intros a Ha. rewrite Hdown in Ha.
    destruct (all_data (fst (run inp yf))) as [|item all] eqn:E; [contradiction|].
    rewrite <- E in *. clear E.
    destruct (export_button inp); [|contradiction].
    destruct (export_format inp =? "CSV")%string.
    + destruct Ha as [<-|[]].
      split; [now left|]. intros symbol. cbn [symbols_of].
      now rewrite combine_all_symbols, Hkeys.
    + destruct (writes_all yf (all_data (fst (run inp yf)))); [|contradiction].
      destruct Ha as [<-|[]].
      split; [now right|]. intros symbol. cbn [symbols_of].
      rewrite write_sheets_items. apply Hkeys.
  - transitivity (all_data (fst (run inp yf)) <> []).
    + rewrite run_state. destruct (stock_symbols inp) as [|symbol0 symbols].
      * cbn. split; [|congruence]. intros [H|[]]. discriminate.
      * cbv zeta. cbn [fst page all_data]. rewrite <- export_offered_rows.
        unfold export_offered. rewrite in_app_iff. split; [|intros H; right; exact H].
        intros [H|H]; [|exact H].
        apply tabs_written_under in H as (j & inner & E). cbn [fst] in E. discriminate.
    + rewrite keys_rows. split; intros [symbol H]; exists symbol; now apply Hkeys.
  - intros [symbol Hs] Hb Hw. rewrite Hdown, Hb.
    apply Hkeys in Hs.
    destruct (all_data (fst (run inp yf))) as [|item all] eqn:E; [contradiction|].
    rewrite <- E in *. clear E.
    destruct (String.eqb_spec (export_format inp) "CSV") as [Hf|Hf]; [reflexivity|].
    destruct Hw as [Hw|Hw]; [contradiction|]. now rewrite Hw.
Qed.

(** ** The combined frame keeps every row *)

Section Combined.

Lemma dict_set_NoDup (V : Type) (d : dict V) (k : string) (v : V) :
  NoDup (keys d) -> NoDup (keys (dict_set d k v)).
Proof.
  induction d as [|[k0 v0] d IH]; cbn [dict_set]; intros H.
  - repeat constructor. intros [].
  - destruct (String.eqb_spec k0 k) as [->|Hne]; [exact H|].
    change (NoDup (k0 :: keys (dict_set d k v))).
    change (NoDup (k0 :: keys d)) in H. inversion H as [|? ? Hnotin Hnd]; subst.
    constructor; [|now apply IH].
    rewrite keys_dict_set. intuition.
Qed.

Lemma tabs_stored_NoDup (inp : Inputs) (yf : Provider) (items : list (nat * string))
    (all : dict Pandas.DataFrame) :
  NoDup (keys all) -> NoDup (keys (tabs_stored inp yf items all)).
Proof.
  unfold tabs_stored. revert all.
  induction items as [|[i symbol] items IH]; intros all H; cbn [fold_left]; [exact H|].
  apply IH. unfold stored. cbn [snd].
  destruct (fetch_of inp yf symbol) as [message|[data stock_info]]; [exact H|].
  now apply dict_set_NoDup.
Qed.

Lemma rows_of_own_symbol (symbol : string) (data : Pandas.DataFrame) :
  map fst (filter (fun rs : Pandas.Row * string => (snd rs =? symbol)%string)
                  (map (fun r => (r, symbol)) data)) = data.
Proof.
  induction data as [|r data IH]; [reflexivity|].
  cbn [map filter snd]. rewrite String.eqb_refl. cbn [map fst]. now rewrite IH.
Qed.

Lemma rows_of_other_symbol (symbol k : string) (data : Pandas.DataFrame) :
  k <> symbol ->
  map fst (filter (fun rs : Pandas.Row * string => (snd rs =? symbol)%string)
                  (map (fun r => (r, k)) data)) = [].
Proof.
  intros Hne. apply String.eqb_neq in Hne.
  induction data as [|r data IH]; [reflexivity|].
  cbn [map filter snd]. now rewrite Hne.
Qed.

Lemma rows_of_absent_symbol (all : dict Pandas.DataFrame) (symbol : string) :
  ~ In symbol (keys all) -> rows_of symbol (combine_all all) = [].
Proof.
  rewrite combine_all_rows. unfold rows_of.
  induction all as [|[k d] all IH]; intros Hn; [reflexivity|].
  cbn [flat_map fst snd]. rewrite filter_app, map_app, IH.
  - rewrite app_nil_r. apply rows_of_other_symbol.
    intros ->. apply Hn. now left.
  - intros H. apply Hn. now right.
Qed.

(** Taking the rows of one symbol out of the combined frame gives back the
    frame stored for it, row for row. *)
Lemma combine_all_keeps_rows (all : dict Pandas.DataFrame) (symbol : string)
    (data : Pandas.DataFrame) :
  NoDup (keys all) -> In (symbol, data) all -> rows_of symbol (combine_all all) = data.
Proof.
  induction all as [|[k d] all IH]; intros Hnd Hin; [contradiction|].
  change (NoDup (k :: keys all)) in Hnd. inversion Hnd as [|? ? Hnotin Hnd']; subst.
  pose proof (combine_all_rows ((k, d) :: all)) as E. cbn [flat_map fst snd] in E.
  unfold rows_of in *. rewrite E, filter_app, map_app.
  destruct Hin as [Heq|Hin].
  - injection Heq as -> ->. rewrite rows_of_own_symbol.
    pose proof (rows_of_absent_symbol all symbol Hnotin) as Hr.
    unfold rows_of in Hr. rewrite combine_all_rows in Hr. rewrite Hr. apply app_nil_r.
  - assert (Hne : k <> symbol).
    { intros ->. apply Hnotin. apply in_keys. now exists data. }
    rewrite (rows_of_other_symbol d Hne). cbn [app].
    rewrite <- combine_all_rows. now apply IH.
Qed.

(** X7: in a run, the text handed to "Download CSV" is made of a combined
    frame from which the frame of every exported symbol is recovered: the
    rows carrying a symbol are the rows of that symbol's frame, in order. *)
Theorem exported_rows (inp : Inputs) (yf : Provider) (symbol : string)
    (data : Pandas.DataFrame) :
  let all := all_data (fst (run inp yf)) in
  In (symbol, data) all -> rows_of symbol (combine_all all) = data.
Proof.
  cbv zeta. intros Hin. apply combine_all_keeps_rows; [|exact Hin].
  rewrite run_state. destruct (stock_symbols inp) as [|symbol0 symbols].
  - constructor.
  - cbv zeta. cbn [fst all_data]. apply tabs_stored_NoDup. constructor.
Qed.

End Combined.

(** ** A sample run *)

(** Four symbols: the provider raises for GOOGL, has two bars for AAPL, an
    empty frame for TSLA, and one bar for MSFT but no info. *)
Example sample_run :
  let final := fst (run sample_inputs sample_yf) in
  snd (run sample_inputs sample_yf) = Ret tt /\
  keys (all_data final) = ["AAPL"%string] /\
  downloads (page final) = [csv_of [ (Pandas.mkRow 1 98 105 95 100 1000, "AAPL"%string);
                                     (Pandas.mkRow 2 101 112 99 110 2000, "AAPL"%string) ]] /\
  in_tab 0 (page final) =
    [ ([Tab 0], subheader "GOOGL Stock Analysis");
      ([Tab 0; Spinner "Loading data for GOOGL..."],
       error "Error fetching data for GOOGL: no route to host");
      ([Tab 0], error "No data available for GOOGL") ] /\
  in_tab 2 (page final) =
    [ ([Tab 2], subheader "TSLA Stock Analysis");
      ([Tab 2; Spinner "Loading data for TSLA..."],
       warning "No data returned for TSLA. Try a different date range.");
      ([Tab 2], error "No data available for TSLA") ] /\
  In ([Tab 1; Column "col1"],
      metric "Current Price" [Str "$"; Num ".2f" 110%float]
        (Some [Num ".2f" 10%float; Str " ("; Num ".2f" 10%float; Str "%)"]))
     (in_tab 1 (page final)) /\
  date_window sample_inputs = (datetime 1698790400000000, datetime 1700000000000000).
Proof.
  cbv zeta.
  do 5 (split; [vm_compute; reflexivity|]).
  split; [|vm_compute; reflexivity].
  vm_compute. tauto.
Qed.

(** ** Further properties of the statistics *)

Section MoreStatistics.

Local Open Scope float_scope.

Lemma same_parts_same_column (A B : Type) (parts : Pandas.Row -> B) (name : Pandas.Row -> A)
    (part : B -> A) (df df' : Pandas.DataFrame) :
  (forall r, name r = part (parts r)) ->
  map parts df = map parts df' -> map name df = map name df'.
Proof.
  intros Hname H.
  rewrite (map_ext name (fun r => part (parts r)) Hname df).
  rewrite (map_ext name (fun r => part (parts r)) Hname df').
  rewrite <- !(map_map parts part). now rewrite H.
Qed.

(** X5: calculate_statistics never reads the Open column nor the dates: two
    frames that agree row by row on High, Low, Close and Volume get the same
    result, whatever their Open values and their index. *)
Theorem open_is_never_read (data data' : Pandas.DataFrame) :
  map read_values data = map read_values data' ->
  calculate_statistics (Some data) = calculate_statistics (Some data').
Proof.
  intros H.
  pose proof (same_parts_same_column read_values Pandas.High (fun v => fst (fst (fst v)))
                data data' (fun _ => eq_refl) H) as HH.
  pose proof (same_parts_same_column read_values Pandas.Low (fun v => snd (fst (fst v)))
                data data' (fun _ => eq_refl) H) as HL.
  pose proof (same_parts_same_column read_values Pandas.Close (fun v => snd (fst v))
                data data' (fun _ => eq_refl) H) as HC.
  pose proof (same_parts_same_column read_values Pandas.Volume snd
                data data' (fun _ => eq_refl) H) as HV.
  destruct data as [|first rest], data' as [|first' rest']; try discriminate; [reflexivity|].
  rewrite !calculate_statistics_rows. unfold Pandas.col. rewrite HH, HL, HV.
  assert (Hlast : Pandas.Close (last rest first) = Pandas.Close (last rest' first')).
  { rewrite <- (last_map Pandas.Close rest first), <- (last_map Pandas.Close rest' first').
    cbn [map] in HC. injection HC as -> ->. reflexivity. }
  cbn [map] in HC. injection HC as Hfirst _.
  now rewrite Hfirst, Hlast.
Qed.

(** [two_bars] and [two_bars_reopened] differ in every date and every Open. *)
Lemma open_is_never_read_two_bars :
  calculate_statistics (Some two_bars) = calculate_statistics (Some two_bars_reopened).
Proof. exact (open_is_never_read two_bars two_bars_reopened eq_refl). Defined.

Lemma filter_none_present (s : list float) :
  (forall x, In x s -> Pandas.notna x = false) -> filter Pandas.notna s = [].
Proof.
  induction s as [|x s IH]; intros H; [reflexivity|].
  cbn [filter]. rewrite (H x (or_introl eq_refl)). apply IH.
  intros y Hy. apply H. now right.
Qed.

(** X3: High and Low skip missing values.  When some High is present, the
    High returned is a present value of the column that no present value
    exceeds; when every High is missing, the High returned is NaN and nothing
    is raised; and likewise for Low with the least present value. *)
Theorem statistics_skip_missing (first : Pandas.Row) (rest : Pandas.DataFrame) :
  let highs := map Pandas.High (first :: rest) in
  let lows := map Pandas.Low (first :: rest) in
  exists stats,
    calculate_statistics (Some (first :: rest)) = Ret (Some stats) /\
    (forall x, In x highs -> Pandas.notna x = true ->
       In (High stats) highs /\ Pandas.notna (High stats) = true /\
       forall y, In y highs -> Pandas.notna y = true -> (y <=? High stats) = true) /\
    ((forall x, In x highs -> Pandas.notna x = false) -> is_nan (High stats) = true) /\
    (forall x, In x lows -> Pandas.notna x = true ->
       In (Low stats) lows /\ Pandas.notna (Low stats) = true /\
       forall y, In y lows -> Pandas.notna y = true -> (Low stats <=? y) = true) /\
    ((forall x, In x lows -> Pandas.notna x = false) -> is_nan (Low stats) = true).
Proof.
  cbv zeta. eexists. split; [apply calculate_statistics_rows|].
  cbn [High Low]. unfold Pandas.col.
  split; [|split; [|split]].
  - intros x Hx Hn. exact (max_skips_missing _ _ Hx Hn).
  - intros Hnone. unfold Pandas.max. now rewrite (filter_none_present _ Hnone).
  - intros x Hx Hn. exact (min_skips_missing _ _ Hx Hn).
  - intros Hnone. unfold Pandas.min. now rewrite (filter_none_present _ Hnone).
Qed.

Lemma last_in (A : Type) (xs : list A) (x : A) : In (last xs x) (x :: xs).
Proof.
  revert x. induction xs as [|y ys IH]; intros x; [now left|].
  rewrite last_cons. right. apply IH.
Qed.

(** X4: when every bar has its High and Low present and its Close between
    them, the Opening Price and the Current Price returned lie between the
    Low and the High returned, and the Low is at most the High. *)
Theorem prices_within_high_low (first : Pandas.Row) (rest : Pandas.DataFrame) :
  forallb well_formed (first :: rest) = true ->
  exists stats,
    calculate_statistics (Some (first :: rest)) = Ret (Some stats) /\
    (Low stats <=? Opening_Price stats) = true /\
    (Opening_Price stats <=? High stats) = true /\
    (Low stats <=? Current_Price stats) = true /\
    (Current_Price stats <=? High stats) = true /\
    (Low stats <=? High stats) = true.
Proof.
  intros Hwf. rewrite forallb_forall in Hwf.
  assert (Hbar : forall r, In r (first :: rest) ->
             Pandas.notna (Pandas.High r) = true /\ Pandas.notna (Pandas.Low r) = true /\
             (Pandas.Low r <=? Pandas.Close r) = true /\
             (Pandas.Close r <=? Pandas.High r) = true).
  { intros r Hr. specialize (Hwf r Hr). unfold well_formed in Hwf.
    apply andb_prop in Hwf as [Hwf H4]. apply andb_prop in Hwf as [Hwf H3].
    apply andb_prop in Hwf as [H1 H2]. auto. }
  assert (Hhi : forall r, In r (first :: rest) ->
             (Pandas.High r <=? Pandas.max (map Pandas.High (first :: rest))) = true).
  { intros r Hr.
    destruct (max_skips_missing (map Pandas.High (first :: rest)) (Pandas.High r))
      as (_ & _ & Hub); [now apply in_map|now apply Hbar|].
    apply Hub; [now apply in_map|now apply Hbar]. }
  assert (Hlo : forall r, In r (first :: rest) ->
             (Pandas.min (map Pandas.Low (first :: rest)) <=? Pandas.Low r) = true).
  { intros r Hr.
    destruct (min_skips_missing (map Pandas.Low (first :: rest)) (Pandas.Low r))
      as (_ & _ & Hlb); [now apply in_map|now apply Hbar|].
    apply Hlb; [now apply in_map|now apply Hbar]. }
  assert (Hf : In first (first :: rest)) by now left.
  pose proof (last_in rest first) as Hl.
  eexists. split; [apply calculate_statistics_rows|].
  cbn [High Low Opening_Price Current_Price]. unfold Pandas.col.
  destruct (Hbar _ Hf) as (_ & _ & Hf1 & Hf2).
  destruct (Hbar _ Hl) as (_ & _ & Hl1 & Hl2).
  repeat split.
  - eapply leb_trans; [apply (Hlo _ Hf)|exact Hf1].
  - eapply leb_trans; [exact Hf2|apply (Hhi _ Hf)].
  - eapply leb_trans; [apply (Hlo _ Hl)|exact Hl1].
  - eapply leb_trans; [exact Hl2|apply (Hhi _ Hl)].
  - eapply leb_trans; [apply (Hlo _ Hf)|].
    eapply leb_trans; [exact Hf1|]. eapply leb_trans; [exact Hf2|apply (Hhi _ Hf)].
Qed.

(** On [two_bars]: 95 <= 100 <= 112 and 95 <= 110 <= 112. *)
Lemma prices_within_high_low_two_bars :
  exists stats,
    calculate_statistics (Some two_bars) = Ret (Some stats) /\
    (Low stats <=? Opening_Price stats) = true /\
    (Opening_Price stats <=? High stats) = true /\
    (Low stats <=? Current_Price stats) = true /\
    (Current_Price stats <=? High stats) = true /\
    (Low stats <=? High stats) = true.
Proof.
  exact (prices_within_high_low
           (Pandas.mkRow 1 98 105 95 100 1000) [Pandas.mkRow 2 101 112 99 110 2000]
           eq_refl).
Defined.

End MoreStatistics.

(** ** Further properties of the date range and of get_stock_data *)

Section MoreFetching.

(** X2: a period that is none of "Custom", "1 Week", "1 Month", "3 Months" and
    "6 Months" falls to the last branch: the window ends now and starts 370
    days before, whatever the period's text is. *)
Theorem untested_period_is_one_year (inp : Inputs) (period : string) :
  ~ In period tested_periods ->
  date_window (with_period inp period) =
  (datetime (now inp - 370 * us_per_day), datetime (now inp)).
Proof.
  intros Hn. unfold tested_periods in Hn. cbn [In] in Hn.
  unfold date_window. cbn [with_period date_range now].
  destruct (String.eqb_spec period "Custom") as [->|_]; [tauto|].
  destruct (String.eqb_spec period "1 Week") as [->|_]; [tauto|].
  destruct (String.eqb_spec period "1 Month") as [->|_]; [tauto|].
  destruct (String.eqb_spec period "3 Months") as [->|_]; [tauto|].
  destruct (String.eqb_spec period "6 Months") as [->|_]; [tauto|].
  reflexivity.
Qed.

Lemma untested_period_is_one_year_sample :
  date_window (with_period sample_inputs "2 Years"%string) =
  (datetime (1700000000000000 - 370 * us_per_day), datetime 1700000000000000).
Proof.
  apply (@untested_period_is_one_year sample_inputs "2 Years"%string).
  cbn. intros [H|[H|[H|[H|[H|[]]]]]]; discriminate H.
Defined.

(** X1: get_stock_data never raises and never touches [all_data].  It returns
    the frame together with the info exactly when [history] returned a frame
    with rows and [info] returned, and then writes nothing; in every other
    case it returns (None, None) and writes one message: a warning when the
    frame is empty, an error carrying the exception's text when [history]
    raised, and the same error when [history] returned rows but [info] raised,
    the rows being dropped. *)
Theorem get_stock_data_outcomes (yf : Provider) (symbol : string) (start end_ : pydate)
    (path : list container) (s : state) :
  let asked := history yf symbol (strftime_day start) (strftime_day end_) in
  let result := get_stock_data yf symbol start end_ path s in
  let failed message :=
    result = ({| page := page s ++ [(path, message)]; all_data := all_data s |},
              Ret (None, None)) in
  (exists data stock_info,
     asked = Ret data /\ Pandas.empty data = false /\ info yf symbol = Ret stock_info /\
     result = (s, Ret (Some data, Some stock_info))) \/
  (asked = Ret [] /\
   failed (warning ("No data returned for " ++ symbol ++ ". Try a different date range."))) \/
  (exists e, asked = Raise e /\
     failed (error ("Error fetching data for " ++ symbol ++ ": " ++ str e))) \/
  (exists data e,
     asked = Ret data /\ Pandas.empty data = false /\ info yf symbol = Raise e /\
     failed (error ("Error fetching data for " ++ symbol ++ ": " ++ str e))).
Proof.
  cbv zeta. unfold get_stock_data, try_except, bind, lift, st, ret.
  destruct (history yf symbol _ _) as [[|first rest]|e].
  - right. left. split; reflexivity.
  - cbn [Pandas.empty]. destruct (info yf symbol) as [stock_info|e].
    + left. exists (first :: rest), stock_info. repeat split.
    + right. right. right. exists (first :: rest), e. repeat split.
  - right. right. left. exists e. split; reflexivity.
Qed.

End MoreFetching.

(** ** Further properties of a run *)

Section MoreRun.

Variables (inp : Inputs) (yf : Provider).

Lemma run_all_data :
  all_data (fst (run inp yf)) = tabs_stored inp yf (enumerate (stock_symbols inp)) [].
Proof. rewrite run_state. now destruct (stock_symbols inp). Qed.

Lemma run_downloads :
  let all := all_data (fst (run inp yf)) in
  downloads (page (fst (run inp yf))) =
  match all with
  | [] => []
  | _ :: _ =>
      if export_button inp then
        if (export_format inp =? "CSV")%string then [csv_of (combine_all all)]
        else if writes_all yf all then [xlsx_of (write_sheets all)]
        else []
      else []
  end.
Proof.
  cbv zeta. rewrite run_state. destruct (stock_symbols inp) as [|symbol0 symbols]; [reflexivity|].
  cbv zeta. cbn [fst page all_data].
  now rewrite downloads_app, tabs_written_downloads, export_downloads.
Qed.

Lemma dict_set_absent (V : Type) (d : dict V) (k : string) (v : V) :
  ~ In k (keys d) -> dict_set d k v = d ++ [(k, v)].
Proof.
  induction d as [|[k0 v0] d IH]; intros Hn; [reflexivity|].
  cbn [dict_set app]. destruct (String.eqb_spec k0 k) as [->|Hne].
  - exfalso. apply Hn. now left.
  - rewrite IH; [reflexivity|]. intros H. apply Hn. now right.
Qed.

Lemma tabs_stored_order (items : list (nat * string)) (all : dict Pandas.DataFrame) :
  NoDup (keys all ++ map snd items) ->
  keys (tabs_stored inp yf items all) =
  keys all ++ filter (succeeded inp yf) (map snd items).
Proof.
  unfold tabs_stored. revert all.
  induction items as [|[i symbol] items IH]; intros all Hnd; cbn [fold_left map snd filter].
  - now rewrite app_nil_r.
  - cbn [map snd] in Hnd.
    destruct (fetch_of inp yf symbol) as [message|[data stock_info]] eqn:E.
    + assert (Hs : stored inp yf symbol all = all) by (unfold stored; now rewrite E).
      assert (Hb : succeeded inp yf symbol = false) by (unfold succeeded; now rewrite E).
      rewrite Hs, Hb. apply IH. now apply NoDup_remove_1 in Hnd.
    + assert (Hs : stored inp yf symbol all = all ++ [(symbol, data)]).
      { unfold stored. rewrite E. apply dict_set_absent.
        apply NoDup_remove_2 in Hnd. intros H. apply Hnd. apply in_or_app. now left. }
      assert (Hb : succeeded inp yf symbol = true) by (unfold succeeded; now rewrite E).
      rewrite Hs, Hb, IH.
      * unfold keys. rewrite map_app. cbn [map fst]. now rewrite <- app_assoc.
      * unfold keys. rewrite map_app. cbn [map fst]. now rewrite <- app_assoc.
Qed.

Lemma fetch_of_history (symbol : string) (data : Pandas.DataFrame) (stock_info : Info) :
  fetch_of inp yf symbol = inr (data, stock_info) ->
  history yf symbol (strftime_day (start_date inp)) (strftime_day (end_date inp)) = Ret data.
Proof.
  unfold fetch_of.
  destruct (history yf symbol _ _) as [d|e]; [|discriminate].
  destruct (Pandas.empty d); [discriminate|].
  destruct (info yf symbol); [|discriminate].
  intros H. now injection H as <- _.
Qed.

Lemma tabs_stored_from_provider (items : list (nat * string)) (all : dict Pandas.DataFrame) :
  (forall k d, In (k, d) all -> exists i, fetch_of inp yf k = inr (d, i)) ->
  forall k d, In (k, d) (tabs_stored inp yf items all) ->
              exists i, fetch_of inp yf k = inr (d, i).
Proof.
  unfold tabs_stored. revert all.
  induction items as [|[j symbol] items IH]; intros all Hall; cbn [fold_left]; [exact Hall|].
  apply IH. unfold stored. cbn [snd].
  destruct (fetch_of inp yf symbol) as [message|[data stock_info]] eqn:E; [exact Hall|].
  intros k d Hin. apply in_dict_set in Hin as [Heq|Hin]; [|now apply Hall].
  injection Heq as -> ->. now exists stock_info.
Qed.

Lemma export_under_sidebar (all : dict Pandas.DataFrame) (pe : placed) :
  In pe (rendered_with all (export inp yf) []) -> fst pe = [Sidebar].
Proof.
  unfold rendered_with, export.
  cbv [bind within st ret get_all_data lift]. cbn [fst snd page all_data app].
  destruct all as [|item all].
  - cbn [In]. intros [<-|[<-|[]]]; reflexivity.
  - destruct (export_button inp);
      [destruct (export_format inp =? "CSV")%string;
       [|destruct (to_excel_each yf (item :: all) []) as [sheets|e]]|];
      cbn [fst snd page all_data app In]; intuition (subst; reflexivity).
Qed.

Lemma tabs_written_index (symbols : list string) (pe : placed) :
  In pe (tabs_written inp yf (enumerate symbols) []) ->
  exists i inner, fst pe = Tab i :: inner /\ (i < List.length symbols)%nat.
Proof.
  unfold tabs_written, enumerate. intros H.
  apply in_flat_map in H as [[j symbol] [Hitem H]]. cbn [fst snd app] in H.
  pose proof (tab_body_under inp yf j symbol) as Hall.
  rewrite Forall_forall in Hall. destruct (Hall pe H) as [inner E].
  exists j, inner. split; [exact E|].
  apply in_combine_l in Hitem. apply in_seq in Hitem. lia.
Qed.

Lemma in_downloads (pg : list placed) (path : list container) (label : string)
    (a : artifact) (file_name : fstring) (mime : string) :
  In (path, download_button label a file_name mime) pg -> In a (downloads pg).
Proof.
  intros H. unfold downloads. apply in_flat_map.
  exists (path, download_button label a file_name mime). split; [exact H|]. now left.
Qed.

End MoreRun.

(** X6: with distinct symbols selected, [all_data] holds the symbols whose
    fetch succeeded with data in the order of the selection; and the frame it
    holds for a symbol is the frame [history] returned for that symbol and the
    days of the date range, a frame with rows. *)
Theorem all_data_in_selection_order (inp : Inputs) (yf : Provider) :
  NoDup (stock_symbols inp) ->
  let final := fst (run inp yf) in
  keys (all_data final) = filter (succeeded inp yf) (stock_symbols inp) /\
  forall symbol data,
    In (symbol, data) (all_data final) ->
    history yf symbol (strftime_day (start_date inp)) (strftime_day (end_date inp)) = Ret data /\
    Pandas.empty data = false.
Proof.
  intros Hnd. cbv zeta. rewrite run_all_data. split.
  - rewrite tabs_stored_order; rewrite snd_enumerate; [reflexivity|exact Hnd].
  - intros symbol data Hin.
    destruct (tabs_stored_from_provider inp yf (enumerate (stock_symbols inp)) []
                (fun k d (H : In (k, d) []) => match H with end) symbol data Hin) as [i E].
    split; [exact (fetch_of_history inp yf symbol E)|exact (fetch_of_rows inp yf symbol E)].
Qed.

Lemma sample_symbols_distinct : NoDup (stock_symbols sample_inputs).
Proof.
  cbn [stock_symbols sample_inputs].
  repeat (constructor; [cbn [In]; intuition discriminate|]). constructor.
Qed.

Lemma all_data_in_selection_order_sample :
  let final := fst (run sample_inputs sample_yf) in
  keys (all_data final) = filter (succeeded sample_inputs sample_yf) (stock_symbols sample_inputs) /\
  forall symbol data,
    In (symbol, data) (all_data final) ->
    history sample_yf symbol (strftime_day (start_date sample_inputs))
            (strftime_day (end_date sample_inputs)) = Ret data /\
    Pandas.empty data = false.
Proof.
  exact (all_data_in_selection_order sample_inputs sample_yf sample_symbols_distinct).
Defined.

(** In the sample run the AAPL rows of the combined frame are [two_bars]. *)
Lemma exported_rows_sample :
  rows_of "AAPL" (combine_all (all_data (fst (run sample_inputs sample_yf)))) = two_bars.
Proof.
  apply (@exported_rows sample_inputs sample_yf "AAPL"%string two_bars).
  vm_compute. left. reflexivity.
Defined.

(** X8: the workbook handed to "Download Excel" is [all_data] as it stands:
    one sheet per exported symbol, in order, the sheet names distinct, every
    sheet with rows; and it is offered only when the format chosen is not
    "CSV". *)
Theorem workbook_has_one_sheet_per_symbol (inp : Inputs) (yf : Provider)
    (sheets : list (string * Pandas.DataFrame)) :
  In (xlsx_of sheets) (downloads (page (fst (run inp yf)))) ->
  sheets = all_data (fst (run inp yf)) /\
  NoDup (map fst sheets) /\
  (forall name data, In (name, data) sheets -> Pandas.empty data = false) /\
  (export_format inp =? "CSV")%string = false.
Proof.
  intros H. pose proof (run_downloads inp yf) as Hd. cbv zeta in Hd. rewrite Hd in H.
  assert (Hnd : NoDup (keys (all_data (fst (run inp yf)))))
    by (rewrite run_all_data; apply tabs_stored_NoDup; constructor).
  assert (Hrows : all_with_rows (all_data (fst (run inp yf))))
    by (rewrite run_all_data; apply tabs_stored_with_rows; intros k d []).
  destruct (all_data (fst (run inp yf))) as [|item all] eqn:E; [contradiction|].
  rewrite <- E in *. clear E.
  destruct (export_button inp); [|contradiction].
  destruct (export_format inp =? "CSV")%string.
  - destruct H as [H|[]]. discriminate.
  - destruct (writes_all yf (all_data (fst (run inp yf)))); [|contradiction].
    destruct H as [H|[]]. injection H as <-. rewrite write_sheets_items. auto.
Qed.

Lemma workbook_has_one_sheet_per_symbol_sample :
  [("AAPL"%string, two_bars)] = all_data (fst (run sample_excel sample_yf)) /\
  NoDup (map fst [("AAPL"%string, two_bars)]) /\
  (forall name data, In (name, data) [("AAPL"%string, two_bars)] -> Pandas.empty data = false) /\
  (export_format sample_excel =? "CSV")%string = false.
Proof.
  apply (@workbook_has_one_sheet_per_symbol sample_excel sample_yf).
  vm_compute. left. reflexivity.
Defined.

(** X11: every element a run writes is either the warning of an empty
    selection, or lies under a tab whose index is below the number of
    selected symbols, or lies directly in the sidebar; no tab outside the
    ones created is ever written to. *)
Theorem page_is_tabs_and_sidebar (inp : Inputs) (yf : Provider) (pe : placed) :
  In pe (page (fst (run inp yf))) ->
  (stock_symbols inp = [] /\ fst pe = []) \/
  (exists i inner, fst pe = Tab i :: inner /\ (i < List.length (stock_symbols inp))%nat) \/
  fst pe = [Sidebar].
Proof.
  rewrite run_state. destruct (stock_symbols inp) as [|symbol0 symbols] eqn:E.
  - cbn [fst page In]. intros [<-|[]]. left. split; reflexivity.
  - cbv zeta. cbn [fst page]. rewrite <- E. intros H. apply in_app_or in H as [H|H].
    + right. left. now apply tabs_written_index in H.
    + right. right. now apply export_under_sidebar in H.
Qed.

Lemma page_is_tabs_and_sidebar_sample :
  (stock_symbols sample_inputs = [] /\ fst ([Tab 0], subheader "GOOGL Stock Analysis") = []) \/
  (exists i inner, fst ([Tab 0], subheader "GOOGL Stock Analysis") = Tab i :: inner /\
                   (i < List.length (stock_symbols sample_inputs))%nat) \/
  fst ([Tab 0], subheader "GOOGL Stock Analysis") = [Sidebar].
Proof.
  apply (@page_is_tabs_and_sidebar sample_inputs sample_yf
           ([Tab 0], subheader "GOOGL Stock Analysis")).
  vm_compute. left. reflexivity.
Defined.

(** X12: a run offers at most one download, and none unless the export
    button was pressed; a download button is always in the sidebar, and it is
    the CSV of the combined frames when the format chosen is "CSV" and the
    workbook for any other format, the file name carrying today's date and
    the matching extension. *)
Theorem download_only_on_request (inp : Inputs) (yf : Provider) :
  let final := fst (run inp yf) in
  (List.length (downloads (page final)) <= 1)%nat /\
  (export_button inp = false -> downloads (page final) = []) /\
  forall path label a file_name mime,
    In (path, download_button label a file_name mime) (page final) ->
    path = [Sidebar] /\ export_button inp = true /\
    ((export_format inp = "CSV"%string /\ label = "Download CSV"%string /\
      a = csv_of (combine_all (all_data final)) /\
      file_name = [Str "stock_data_"; Day "%Y%m%d" (datetime (now inp)); Str ".csv"] /\
      mime = "text/csv"%string) \/
     (export_format inp <> "CSV"%string /\ label = "Download Excel"%string /\
      a = xlsx_of (write_sheets (all_data final)) /\
      file_name = [Str "stock_data_"; Day "%Y%m%d" (datetime (now inp)); Str ".xlsx"] /\
      mime = "application/vnd.openxmlformats-officedocument.spreadsheetml.sheet"%string)).
Proof.
  cbv zeta. pose proof (run_downloads inp yf) as Hd. cbv zeta in Hd.
  split; [|split].
  - rewrite Hd. destruct (all_data (fst (run inp yf))) as [|item all]; [cbn; lia|].
    destruct (export_button inp); [|cbn; lia].
    destruct (export_format inp =? "CSV")%string; [cbn; lia|].
    destruct (writes_all yf (item :: all)); cbn; lia.
  - intros Hb. rewrite Hd, Hb. now destruct (all_data (fst (run inp yf))).
  - intros path label a file_name mime Hin.
    rewrite run_state in Hin |- *. destruct (stock_symbols inp) as [|symbol0 symbols].
    + cbn [fst page In] in Hin. destruct Hin as [H|[]]. discriminate H.
    + cbv zeta in Hin |- *. cbn [fst page all_data] in Hin |- *.
      apply in_app_or in Hin as [Hin|Hin].
      * apply in_downloads in Hin. rewrite tabs_written_downloads in Hin. contradiction.
      * revert Hin. unfold rendered_with, export.
        cbv [bind within st ret get_all_data lift]. cbn [fst snd page all_data app].
        destruct (tabs_stored inp yf (enumerate (symbol0 :: symbols)) []) as [|item all].
        { cbn [In]. intros [H|[H|[]]]; discriminate H. }
        destruct (export_button inp);
          [destruct (String.eqb_spec (export_format inp) "CSV") as [Hf|Hf];
           [|destruct (to_excel_each yf (item :: all) []) as [sheets|e] eqn:Hw]|];
          cbn [fst snd page all_data app In];
          intros [H|[H|[H|[H|H]]]]; try discriminate H; try contradiction.
        -- destruct H as [H|[]]. injection H as <- <- <- <- <-.
           split; [reflexivity|]. split; [reflexivity|]. left. repeat split. exact Hf.
        -- destruct H as [H|[]]. injection H as <- <- <- <- <-.
           apply to_excel_each_returned in Hw as [-> _]. cbn [app].
           rewrite write_sheets_items.
           split; [reflexivity|]. split; [reflexivity|]. right. repeat split. exact Hf.
Qed.

(** X9: the combined frame of the CSV export holds exactly the rows of the
    frames of [all_data], each with the symbol of its frame: no row is
    dropped, none is added, and its length is the number of rows of all the
    frames together. *)
Theorem combined_rows_origin (all : dict Pandas.DataFrame) :
  (forall r symbol,
     In (r, symbol) (combine_all all) <-> exists data, In (symbol, data) all /\ In r data) /\
  List.length (combine_all all) =
    list_sum (map (fun item : string * Pandas.DataFrame => List.length (snd item)) all).
Proof.
  rewrite combine_all_rows. split.
  - intros r symbol. rewrite in_flat_map. split.
    + intros [[k data] [Hk Hr]]. cbn [fst snd] in Hr.
      apply in_map_iff in Hr as [r' [E Hr']]. injection E as -> ->. now exists data.
    + intros [data [Hk Hr]]. exists (symbol, data). split; [exact Hk|].
      cbn [fst snd]. apply in_map_iff. now exists r.
  - induction all as [|[k data] all IH]; [reflexivity|].
    cbn [flat_map map list_sum fst snd]. now rewrite length_app, length_map, IH.
Qed.

Section Panel.

Local Open Scope float_scope.

Lemma leb_nan (x y : float) : is_nan x = true -> (y <=? x) = false.
Proof.
  intros H. rewrite leb_spec.
  assert (E : Prim2SF x = S754_nan).
  { destruct (Prim2SF x) as [s|s| |s m e] eqn:Ex; try reflexivity;
      assert (Hn : Pandas.notna x = true) by (apply notna_spec; rewrite Ex; discriminate);
      unfold Pandas.notna in Hn; rewrite H in Hn; discriminate. }
  rewrite E. unfold SFleb. now destruct (Prim2SF y).
Qed.

(** X13: the price-change panel shows the absolute Price Change and the
    absolute Percentage Change, both with the colour and the arrow decided by
    the sign of the Price Change alone; a Price Change that is NaN is shown
    red with the falling arrow. *)
Theorem direction_follows_price_change (ct symbol : string) (data : Pandas.DataFrame)
    (stats : Statistics) (path : list container) :
  let shown := rendered (render_panel ct symbol data stats) path in
  let colour := fst (colour_and_arrow stats) in
  let arrow := snd (colour_and_arrow stats) in
  In (path ++ [Column "col_calc2"],
      markdown [Str ("### :" ++ colour ++ "[" ++ arrow ++ " $");
                Num ".2f" (abs (Price_Change stats)); Str "]"]) shown /\
  In (path ++ [Column "col_calc3"],
      markdown [Str ("### :" ++ colour ++ "[" ++ arrow ++ " ");
                Num ".2f" (abs (Percentage_Change stats)); Str "%]"]) shown /\
  (is_nan (Price_Change stats) = true -> colour_and_arrow stats = ("red", "↓")%string).
Proof.
  cbv zeta. unfold rendered, rendered_with, render_panel, colour_and_arrow.
  cbv [bind within st ret fst snd page all_data]. cbn [app].
  split; [|split].
  - destruct (0 <=? Price_Change stats); cbn [fst snd]; do 9 right; left; reflexivity.
  - destruct (0 <=? Price_Change stats); cbn [fst snd]; do 12 right; left; reflexivity.
  - intros H. now rewrite (leb_nan (Price_Change stats) 0 H).
Qed.

(** X10: "View Recent Data" shows the last ten rows of the frame, in the
    frame's order, and the whole frame when it has fewer than ten. *)
Theorem recent_data_is_the_last_ten_rows (ct symbol : string) (data : Pandas.DataFrame)
    (stats : Statistics) (path : list container) :
  exists older recent,
    data = older ++ recent /\
    List.length recent = Nat.min 10 (List.length data) /\
    In (path ++ [Expander "View Recent Data"], dataframe recent)
       (rendered (render_panel ct symbol data stats) path).
Proof.
  exists (firstn (List.length data - 10) data), (Pandas.tail 10 data).
  split; [|split].
  - unfold Pandas.tail. symmetry. apply firstn_skipn.
  - unfold Pandas.tail. rewrite length_skipn. lia.
  - unfold rendered, rendered_with, render_panel.
    cbv [bind within st ret fst snd page all_data]. cbn [app].
    do 18 right. left. reflexivity.
Qed.

(** X14: a chart type that is none of "Candlestick", "OHLC" and "Line Chart"
    falls to the last branch: the price figure is the Close column over the
    dates, filled to zero, whatever the chart type's text is; its title still
    carries that text. *)
Theorem untested_chart_type_is_area (ct symbol : string) (data : Pandas.DataFrame) :
  ~ In ct tested_chart_types ->
  traces (price_figure ct symbol data) =
    [ Scatter (map Pandas.Date data) (map Pandas.Close data) None (Some "tozeroy"%string)
              symbol ] /\
  fig_title (price_figure ct symbol data) = (symbol ++ " Stock Price - " ++ ct)%string.
Proof.
  intros Hn. unfold tested_chart_types in Hn. cbn [In] in Hn.
  unfold price_figure. cbn [traces fig_title].
  destruct (String.eqb_spec ct "Candlestick") as [->|_]; [tauto|].
  destruct (String.eqb_spec ct "OHLC") as [->|_]; [tauto|].
  destruct (String.eqb_spec ct "Line Chart") as [->|_]; [tauto|].
  split; reflexivity.
Qed.

Lemma untested_chart_type_is_area_sample :
  traces (price_figure "Area Chart" "AAPL" two_bars) =
    [ Scatter [1; 2]%Z [100; 110] None (Some "tozeroy"%string) "AAPL" ] /\
  fig_title (price_figure "Area Chart" "AAPL" two_bars) = "AAPL Stock Price - Area Chart"%string.
Proof.
  apply (@untested_chart_type_is_area "Area Chart"%string "AAPL"%string two_bars).
  cbn. intros [H|[H|[H|[]]]]; discriminate H.
Defined.

End Panel.

(** ** The Excel writer on frames it refuses *)

(** With the sample symbols and "Excel" chosen: the tabs are written as
    before and AAPL is in [all_data], then the writer raises on its frame;
    the run ends with that exception and offers no file.  With "CSV" chosen
    the same run returns and offers the file. *)
Example excel_writer_raises :
  let r := run sample_excel tz_aware_yf in
  snd r = Raise (PyExc "ValueError"
                   "Excel does not support datetimes with timezones. Please ensure that datetimes are timezone unaware before writing to Excel.") /\
  downloads (page (fst r)) = [] /\
  keys (all_data (fst r)) = ["AAPL"%string] /\
  export_offered (page (fst r)) /\
  in_tab 1 (page (fst r)) = in_tab 1 (page (fst (run sample_excel sample_yf))) /\
  snd (run sample_inputs tz_aware_yf) = Ret tt /\
  List.length (downloads (page (fst (run sample_inputs tz_aware_yf)))) = 1%nat.
Proof.
  cbv zeta.
  do 3 (split; [vm_compute; reflexivity|]).
  split; [vm_compute; tauto|].
  do 2 (split; [vm_compute; reflexivity|]).
  vm_compute. reflexivity.
Qed.

(** Of 0.0 and -0.0, which compare equal, the later one comes back. *)
Example later_zero_is_kept :
  Pandas.max [zero; neg_zero] = neg_zero /\ Pandas.min [zero; neg_zero] = neg_zero /\
  Pandas.max [neg_zero; zero] = zero /\ Pandas.min [neg_zero; zero] = zero.
Proof. repeat split; vm_compute; reflexivity. Qed.
